(** * bno055-rx: the BNO055 driver's codec, register I/O and initialization

    A shallow embedding of [src/bno055.ts] and [src/constants.ts].

    Numbers.  JavaScript numbers are binary64 floats.  Where the driver
    does integer and bit arithmetic (register bytes, raw 16-bit counts) they
    are modelled as [Z], with the 32-bit conversions of the bit operators
    written out; where it divides raw counts into physical units they are
    Rocq's primitive binary64 floats, which have the same division.  The
    bus address is a number the caller supplies and the driver only tests
    with [||] and hands to the transport: it is a binary64 float, [NaN]
    and the signed zeros included.

    Observables.  The driver is written with rxjs observables over the
    callbacks of [i2c-bus].  An observable is modelled by its runs: from a
    state of the device, a run gives how far the subscription got, the bus
    transactions and timers it issued, in order, and the state it leaves
    the device in.  A transaction's callback is taken to run before the
    next timer fires, and transactions are answered in the order they are
    issued.  The polling loops of the source have no bound; a run observes
    at most [fuel] polling periods and is [Running] beyond them. *)

From Stdlib Require Import ZArith List String Ascii Lia Bool.
From Stdlib Require Import Floats.PrimFloat Floats.FloatAxioms.
From Stdlib Require Import Numbers.Cyclic.Int63.Uint63.
From Stdlib Require Import DecimalString HexadecimalString HexadecimalPos HexadecimalN.
Import ListNotations.

Local Open Scope Z_scope.

(** ** JavaScript operators on integer-valued numbers *)

Module JS.

(** [ToInt32]: reduce modulo 2^32 into the signed 32-bit range. *)
Definition ToInt32 (z : Z) : Z := (z + 2 ^ 31) mod 2 ^ 32 - 2 ^ 31.

(** [a & b] *)
Definition band (a b : Z) : Z := Z.land (ToInt32 a) (ToInt32 b).

(** [a | b] *)
Definition bor (a b : Z) : Z := Z.lor (ToInt32 a) (ToInt32 b).

(** [a << b]: the shift count is taken modulo 32, the result wraps. *)
Definition shl (a b : Z) : Z := ToInt32 (Z.shiftl (ToInt32 a) (Z.land b 31)).

(** [a >> b]: sign-propagating right shift. *)
Definition sar (a b : Z) : Z := Z.shiftr (ToInt32 a) (Z.land b 31).

(** An integer-valued number is falsy exactly when it is zero. *)
Definition truthy (a : Z) : bool := negb (a =? 0).

(** [a && b] on numbers: [a] when [a] is falsy, otherwise [b]. *)
Definition and_ (a b : Z) : Z := if truthy a then b else a.

(** [ToBoolean] of a number as a caller may pass it, any binary64 value:
    [+0], [-0] and [NaN] are falsy, every other number is truthy. *)
Definition ToBoolean (a : float) : bool :=
  negb (PrimFloat.eqb a 0 || PrimFloat.is_nan a).

(** [a || b] where [a] may be [undefined]: [b] when [a] is absent or
    falsy, otherwise [a]. *)
Definition or_ (a : option float) (b : float) : float :=
  match a with
  | Some v => if ToBoolean v then v else b
  | None => b
  end.

(** [buffer[i]] inside a bit operation: an index out of range reads
    [undefined], which the bit operators convert to 0. *)
Definition index (buffer : list Z) (i : nat) : Z := nth i buffer 0.

(** Conversion of an integer-valued number to its binary64 value (exact
    below 2^53). *)
Definition toFloat (z : Z) : float :=
  if z <? 0 then PrimFloat.opp (PrimFloat.of_uint63 (Uint63.of_Z (- z)))
  else PrimFloat.of_uint63 (Uint63.of_Z z).

(** [n.toString(16)] for a non-negative integer, and [`${n}`]. *)
Definition toString16 (n : Z) : string :=
  HexadecimalString.NilZero.string_of_uint (N.to_hex_uint (Z.to_N n)).

Definition toString10 (n : Z) : string :=
  DecimalString.NilZero.string_of_int (Z.to_int n).

End JS.

(** ** The register table, [src/constants.ts] *)

Module constants.
Definition BNO055_ID := 0xA0.

Definition CHIP_ID := 0x00.
Definition PAGE_ID := 0x07.

Definition ACCEL_DATA_START := 0x08.
Definition ACCEL_DATA_LSB_TO_METERS_PER_SECOND_SQUARED_DIVISOR := 100.
Definition MAG_DATA_START := 0x0E.
Definition MAG_DATA_LSB_TO_MICRO_TESLA_DIVISOR := 16.
Definition GYRO_DATA_START := 0x14.
Definition GYRO_DATA_LSB_TO_DPS_DIVISOR := 16.
Definition QUATERNION_DATA_START := 0x20.
Definition QUATERNION_DATA_LSB_TO_DPS_DIVISOR := Z.shiftl 1 14.

Definition CALIB_STAT := 0x35.
Definition SELFTEST_RESULT := 0x36.
Definition OPR_MODE := 0x3D.
Definition SYS_TRIGGER := 0x3F.

Definition ACCEL_OFFSET_START := 0x55.
Definition ACCEL_OFFSET_X_LSB := 0x55.
Definition ACCEL_OFFSET_X_MSB := 0x56.
Definition ACCEL_OFFSET_Y_LSB := 0x57.
Definition ACCEL_OFFSET_Y_MSB := 0x58.
Definition ACCEL_OFFSET_Z_LSB := 0x59.
Definition ACCEL_OFFSET_Z_MSB := 0x5A.

Definition MAG_OFFSET_START := 0x55.
Definition MAG_OFFSET_X_LSB := 0x5B.
Definition MAG_OFFSET_X_MSB := 0x5C.
Definition MAG_OFFSET_Y_LSB := 0x5D.
Definition MAG_OFFSET_Y_MSB := 0x5E.
Definition MAG_OFFSET_Z_LSB := 0x5F.
Definition MAG_OFFSET_Z_MSB := 0x60.

Definition GYRO_OFFSET_START := 0x55.
Definition GYRO_OFFSET_X_LSB := 0x61.
Definition GYRO_OFFSET_X_MSB := 0x62.
Definition GYRO_OFFSET_Y_LSB := 0x63.
Definition GYRO_OFFSET_Y_MSB := 0x64.
Definition GYRO_OFFSET_Z_LSB := 0x65.
Definition GYRO_OFFSET_Z_MSB := 0x66.

Definition ACCEL_RADIUS_LSB := 0x67.
Definition ACCEL_RADIUS_MSB := 0x68.
Definition MAG_RADIUS_LSB := 0x69.
Definition MAG_RADIUS_MSB := 0x6A.

Definition ADDRESS_A := 0x28.
Definition ADDRESS_B := 0x29.

Definition OPERATION_MODE_CONFIG := 0x00.
Definition OPERATION_MODE_ACCONLY := 0x01.
Definition OPERATION_MODE_MAGONLY := 0x02.
Definition OPERATION_MODE_GYRONLY := 0x03.
Definition OPERATION_MODE_ACCMAG := 0x04.
Definition OPERATION_MODE_ACCGYRO := 0x05.
Definition OPERATION_MODE_MAGGYRO := 0x06.
Definition OPERATION_MODE_AMG := 0x07.
Definition OPERATION_MODE_IMUPLUS := 0x08.
Definition OPERATION_MODE_COMPASS := 0x09.
Definition OPERATION_MODE_M4G := 0x0A.
Definition OPERATION_MODE_NDOF_FMC_OFF := 0x0B.
Definition OPERATION_MODE_NDOF := 0x0C.

Definition SYSTEM_TRIGGER_RESET := 0x20.
End constants.

(** ** The codec: the three functions at the end of [src/bno055.ts] and the
    two static buffer decoders *)

(** [fromInt16]: if the sign bit is set, convert to the negative value. *)
Definition fromInt16 (int16 : Z) : Z :=
  if JS.truthy (JS.band 0x8000 int16) then int16 - 0x10000 else int16.

(** [int16ToLsb]; the negative branch is [(int16 + 0x10000) && 0xff]. *)
Definition int16ToLsb (int16 : Z) : Z :=
  if int16 <? 0 then JS.and_ (int16 + 0x10000) 0xff
  else JS.band int16 0xff.

(** [int16ToMsb]; [>>] binds tighter than [&&] and than [&], so the negative
    branch is [((int16 + 0x10000) >> 8) && 0xff]. *)
Definition int16ToMsb (int16 : Z) : Z :=
  if int16 <? 0 then JS.and_ (JS.sar (int16 + 0x10000) 8) 0xff
  else JS.band (JS.sar int16 8) 0xff.

(** The decoding expression [fromInt16((msb << 8) | lsb)] that [_readNumber],
    [_bufferToVector] and [_bufferToQuaternion] apply to each byte pair. *)
Definition decodeInt16 (lsb msb : Z) : Z :=
  fromInt16 (JS.bor (JS.shl msb 8) lsb).

Record Vector (number : Type) : Type :=
  { x : number; y : number; z : number }.
Arguments Build_Vector {number}.
Arguments x {number}.
Arguments y {number}.
Arguments z {number}.

Record Quaternion : Type :=
  { qw : float; qx : float; qy : float; qz : float }.

(** [a / b] on integer-valued numbers. *)
Definition divide (a b : Z) : float :=
  PrimFloat.div (JS.toFloat a) (JS.toFloat b).

(** [_bufferToVector]: X, Y, Z, each LSB then MSB. *)
Definition _bufferToVector (buffer : list Z) (divisor : Z) : Vector float :=
  {| x := divide (decodeInt16 (JS.index buffer 0) (JS.index buffer 1)) divisor;
     y := divide (decodeInt16 (JS.index buffer 2) (JS.index buffer 3)) divisor;
     z := divide (decodeInt16 (JS.index buffer 4) (JS.index buffer 5)) divisor |}.

(** [_bufferToQuaternion]: W, X, Y, Z, each LSB then MSB. *)
Definition _bufferToQuaternion (buffer : list Z) : Quaternion :=
  let d := constants.QUATERNION_DATA_LSB_TO_DPS_DIVISOR in
  {| qw := divide (decodeInt16 (JS.index buffer 0) (JS.index buffer 1)) d;
     qx := divide (decodeInt16 (JS.index buffer 2) (JS.index buffer 3)) d;
     qy := divide (decodeInt16 (JS.index buffer 4) (JS.index buffer 5)) d;
     qz := divide (decodeInt16 (JS.index buffer 6) (JS.index buffer 7)) d |}.

(** ** Driver data, [src/bno055.ts] *)

Inductive Bno055Mode : Type :=
| acconly | magonly | gyronly | accmag | accgyro | maggyro | amg
| imuplus | compass | m4g | ndof_fmc_off | ndof.

(** ["config" | Bno055Mode] *)
Inductive Bno055ModeWithConfig : Type :=
| config
| sensor (mode : Bno055Mode).

Record Bno055CalibrationData (number : Type) : Type :=
  { accelerometerOffset : Vector number;
    accelerometerRadius : number;
    gyroscopeOffset : Vector number;
    magnetometerOffset : Vector number;
    magnetometerRadius : number }.
Arguments Build_Bno055CalibrationData {number}.
Arguments accelerometerOffset {number}.
Arguments accelerometerRadius {number}.
Arguments gyroscopeOffset {number}.
Arguments magnetometerOffset {number}.
Arguments magnetometerRadius {number}.

(** [Bno055Options] without the bus handle [i2c], which is a parameter of
    the driver section below.  Optional fields are [option]s; [address] is
    any number; calibration data supplied by the caller holds raw integer
    counts. *)
Module Bno055Options.
Record t : Type :=
  { address : option float;
    calibrationData : option (Bno055CalibrationData Z);
    mode : Bno055Mode;
    debug : option bool }.
End Bno055Options.

(** ** The bus transport and the runs of an observable *)

(** The three asynchronous calls of [i2c-bus] the driver uses, as
    transactions on a device of state [Dev]: each returns what its callback
    receives ([err], or the byte, the bytes read, the acknowledgement).
    [elapse] is the passing of time on the device. *)
Record I2cBus (Dev TErr : Type) : Type :=
  { readByte : float -> Z -> Dev -> (TErr + Z) * Dev;
    readI2cBlock : float -> Z -> Z -> Dev -> (TErr + list Z) * Dev;
    writeByte : float -> Z -> Z -> Dev -> option TErr * Dev;
    elapse : Z -> Dev -> Dev }.
Arguments readByte {Dev TErr}.
Arguments readI2cBlock {Dev TErr}.
Arguments writeByte {Dev TErr}.
Arguments elapse {Dev TErr}.

(** What a subscriber's [error] callback receives: the transport's own
    [err] object passed through, or a string built by the driver. *)
Inductive Error (TErr : Type) : Type :=
| FromTransport (err : TErr)
| Thrown (text : string).
Arguments FromTransport {TErr}.
Arguments Thrown {TErr}.

(** Bus transactions and timers in the order they are issued. *)
Inductive Event : Type :=
| ReadByte (address : float) (register : Z) (byte : option Z)
| ReadI2cBlock (address : float) (register length : Z)
    (buffer : option (list Z))
| WriteByte (address : float) (register byte : Z) (acknowledged : bool)
| Timer (ms : Z).

(** How far a subscription has got: it emitted [a] and completed (for
    [Observable<never>], [a = tt]: it completed), it failed, or it is still
    running when the observation stops. *)
Inductive Outcome (TErr A : Type) : Type :=
| Done (a : A)
| Failed (e : Error TErr)
| Running.
Arguments Done {TErr A}.
Arguments Failed {TErr A}.
Arguments Running {TErr A}.

(** One subscription to an observable: from a device state to its outcome,
    the events it issued and the device state it leaves. *)
Definition Obs (Dev TErr A : Type) : Type :=
  Dev -> Outcome TErr A * list Event * Dev.

Definition outcome {Dev TErr A} (r : Outcome TErr A * list Event * Dev) :
  Outcome TErr A := fst (fst r).
Definition events {Dev TErr A} (r : Outcome TErr A * list Event * Dev) :
  list Event := snd (fst r).
Definition device {Dev TErr A} (r : Outcome TErr A * list Event * Dev) :
  Dev := snd r.

Definition ret {Dev TErr A} (a : A) : Obs Dev TErr A :=
  fun d => (Done a, [], d).

Definition throwObservable {Dev TErr A} (text : string) : Obs Dev TErr A :=
  fun d => (Failed (Thrown text), [], d).

(** Sequencing: the continuation is subscribed when the first observable
    has emitted; a failure, or an observation that stops early, ends it. *)
Definition bind {Dev TErr A B} (m : Obs Dev TErr A) (k : A -> Obs Dev TErr B) :
  Obs Dev TErr B :=
  fun d =>
    match m d with
    | (Done a, t1, d1) =>
        match k a d1 with
        | (r, t2, d2) => (r, t1 ++ t2, d2)
        end
    | (Failed e, t1, d1) => (Failed e, t1, d1)
    | (Running, t1, d1) => (Running, t1, d1)
    end.

Declare Scope obs_scope.
Delimit Scope obs_scope with obs.
Notation "x <- m ;; k" := (bind m (fun x => k))
  (at level 61, m at next level, right associativity) : obs_scope.
(** [concatObservable(a, b)] on [Observable<never>]. *)
Notation "a ;; b" := (bind a (fun _ => b))
  (at level 61, right associativity) : obs_scope.

(** The [map] operator. *)
Definition mapObservable {Dev TErr A B} (f : A -> B) (m : Obs Dev TErr A) :
  Obs Dev TErr B :=
  bind m (fun a => ret (f a)).

(** [zipObservable(a, b)] of two single-value observables: both are
    subscribed at once, so both transactions are issued whatever the other
    one answers; the pair is emitted when both have emitted. *)
Definition zipObservable {Dev TErr A B}
  (a : Obs Dev TErr A) (b : Obs Dev TErr B) : Obs Dev TErr (A * B) :=
  fun d =>
    match a d with
    | (ra, ta, d1) =>
        match b d1 with
        | (rb, tb, d2) =>
            (match ra, rb with
             | Done u, Done v => Done (u, v)
             | Failed e, _ => Failed e
             | _, Failed e => Failed e
             | _, _ => Running
             end, ta ++ tb, d2)
        end
    end.

(** A polling loop [timerObservable(0, 100).pipe(mergeMap(read register),
    takeWhile(continue), ignoreElements())]. *)
Record Poller : Type :=
  { register : Z;
    continue : Z -> bool }.

Local Open Scope obs_scope.

(** ** The driver, [class Bno055Driver] *)

Section Driver.

Context {Dev TErr : Type}.

(** The constructor's [options.i2c] and the rest of its [options]. *)
Variable i2cObject : I2cBus Dev TErr.
Variable options : Bno055Options.t.

Local Abbreviation M := (Obs Dev TErr).

(** [const address = options.address || constants.ADDRESS_A] *)
Definition address : float :=
  JS.or_ (Bno055Options.address options) (JS.toFloat constants.ADDRESS_A).

Definition _readByte (register : Z) : M Z :=
  fun d =>
    match readByte i2cObject address register d with
    | (inl err, d') =>
        (Failed (FromTransport err), [ReadByte address register None], d')
    | (inr byte, d') =>
        (Done byte, [ReadByte address register (Some byte)], d')
    end.

Definition incorrectNumberOfBytes (length bytesRead : Z) : string :=
  ("Incorrect number of bytes read (expected: " ++ JS.toString10 length
     ++ ", recieved: " ++ JS.toString10 bytesRead ++ ")")%string.

(** [_readBytes]: [bytesRead] is the number of bytes the transport
    delivered into the buffer. *)
Definition _readBytes (register length : Z) : M (list Z) :=
  fun d =>
    match readI2cBlock i2cObject address register length d with
    | (inl err, d') =>
        (Failed (FromTransport err),
         [ReadI2cBlock address register length None], d')
    | (inr buffer, d') =>
        let bytesRead := Z.of_nat (List.length buffer) in
        (if negb (bytesRead =? length)
         then Failed (Thrown (incorrectNumberOfBytes length bytesRead))
         else Done buffer,
         [ReadI2cBlock address register length (Some buffer)], d')
    end.

Definition _writeByte (register byte : Z) : M unit :=
  fun d =>
    match writeByte i2cObject address register byte d with
    | (Some err, d') =>
        (Failed (FromTransport err),
         [WriteByte address register byte false], d')
    | (None, d') =>
        (Done tt, [WriteByte address register byte true], d')
    end.

(** [timerObservable(dueTime)]: one tick after [dueTime] ms. *)
Definition timerObservable (dueTime : Z) : M unit :=
  fun d => (Done tt, [Timer dueTime], elapse i2cObject dueTime d).

(** [_delay]: the body is [timerObservable(1000).pipe(ignoreElements())]
    and does not mention its parameter. *)
Definition _delay (delayInMs : Z) : M unit :=
  timerObservable 1000.

(** One period of merged polling loops: the timer of every loop still
    subscribed fires and its read is issued, in subscription order;
    [takeWhile] ends the loops whose byte fails [continue].  Returns the
    loops that go on. *)
Fixpoint pollRound (active : list Poller) : M (list Poller) :=
  match active with
  | [] => ret []
  | p :: rest =>
      byte <- _readByte (register p) ;;
      rest' <- pollRound rest ;;
      ret (if continue p byte then p :: rest' else rest')
  end.

(** The periods follow each other every 100 ms until no loop is left;
    [fuel] bounds the number of periods observed. *)
Fixpoint pollRounds (fuel : nat) (active : list Poller) : M unit :=
  match fuel with
  | O => fun d => (Running, [], d)
  | S fuel' =>
      active' <- pollRound active ;;
      match active' with
      | [] => ret tt
      | _ :: _ => timerObservable 100 ;; pollRounds fuel' active'
      end
  end.

(** [mergeObservable(...)] of polling loops, each on its own
    [timerObservable(0, 100)]; it completes when all of them have. *)
Definition mergeObservable (fuel : nat) (pollers : list Poller) : M unit :=
  match pollers with
  | [] => ret tt
  | _ :: _ => timerObservable 0 ;; pollRounds fuel pollers
  end.

(** A single polling loop. *)
Definition poll (fuel : nat) (p : Poller) : M unit :=
  mergeObservable fuel [p].

Definition _awaitCalibrationPart (bitsToCheck : Z) : Poller :=
  {| register := constants.CALIB_STAT;
     continue := fun byte => negb (JS.band byte bitsToCheck =? bitsToCheck) |}.

Definition _confirmBoot (fuel : nat) : M unit :=
  poll fuel
    {| register := constants.CHIP_ID;
       continue := fun byte => negb (byte =? constants.BNO055_ID) |}.

Definition selfTestFailed (byte : Z) : string :=
  ("Self test failed, got 0x" ++ JS.toString16 byte ++ ".")%string.

Definition _confirmSelfTest : M unit :=
  byte <- _readByte constants.SELFTEST_RESULT ;;
  if JS.band byte 0xF =? 0xF then ret tt
  else throwObservable (selfTestFailed byte).

Definition _ensurePage (page : Z) : M unit :=
  byte <- _readByte constants.PAGE_ID ;;
  if byte =? page then ret tt
  else _writeByte constants.PAGE_ID page.

Definition modeValue (mode : Bno055ModeWithConfig) : Z :=
  match mode with
  | sensor accgyro => constants.OPERATION_MODE_ACCGYRO
  | sensor accmag => constants.OPERATION_MODE_ACCMAG
  | sensor acconly => constants.OPERATION_MODE_ACCONLY
  | sensor amg => constants.OPERATION_MODE_AMG
  | sensor compass => constants.OPERATION_MODE_COMPASS
  | sensor gyronly => constants.OPERATION_MODE_GYRONLY
  | sensor imuplus => constants.OPERATION_MODE_IMUPLUS
  | sensor m4g => constants.OPERATION_MODE_M4G
  | sensor maggyro => constants.OPERATION_MODE_MAGGYRO
  | sensor magonly => constants.OPERATION_MODE_MAGONLY
  | sensor ndof => constants.OPERATION_MODE_NDOF
  | sensor ndof_fmc_off => constants.OPERATION_MODE_NDOF_FMC_OFF
  | config => constants.OPERATION_MODE_CONFIG
  end.

Definition _setMode (mode : Bno055ModeWithConfig) : M unit :=
  _writeByte constants.OPR_MODE (modeValue mode) ;;
  _delay 30.

Definition _reset : M unit :=
  _writeByte constants.SYS_TRIGGER constants.SYSTEM_TRIGGER_RESET ;;
  _delay 1000.

(** The four loops [_awaitCalibration] merges. *)
Definition calibrationParts : list Poller :=
  [ _awaitCalibrationPart 0x03;    (* magnetometer *)
    _awaitCalibrationPart 0x0C;    (* accelerometer *)
    _awaitCalibrationPart 0x30;    (* gyroscope *)
    _awaitCalibrationPart 0xC0 ].  (* system *)

Definition _awaitCalibration (fuel : nat) : M unit :=
  _setMode (sensor ndof_fmc_off) ;;
  mergeObservable fuel calibrationParts.

Definition _initializePreCalibration (fuel : nat) : M unit :=
  _confirmBoot fuel ;;
  _ensurePage 0 ;;
  _confirmSelfTest ;;
  _setMode config ;;
  _reset ;;
  _confirmBoot fuel.

Definition _readNumber (lsbAddress : Z) : M Z :=
  mapObservable
    (fun buffer => decodeInt16 (JS.index buffer 0) (JS.index buffer 1))
    (_readBytes lsbAddress 2).

Definition _readQuaternion (startAddress : Z) : M Quaternion :=
  mapObservable _bufferToQuaternion (_readBytes startAddress 8).

Definition _readVector (startAddress divisor : Z) : M (Vector float) :=
  mapObservable (fun buffer => _bufferToVector buffer divisor)
    (_readBytes startAddress 6).

(** [_readCalibration]: the five reads are zipped; the numbers read back
    are given as their binary64 values. *)
Definition _readCalibration : M (Bno055CalibrationData float) :=
  mapObservable
    (fun '(accelerometerOffset, (accelerometerRadius, (gyroscopeOffset,
           (magnetometerOffset, magnetometerRadius)))) =>
       {| accelerometerOffset := accelerometerOffset;
          accelerometerRadius := JS.toFloat accelerometerRadius;
          gyroscopeOffset := gyroscopeOffset;
          magnetometerOffset := magnetometerOffset;
          magnetometerRadius := JS.toFloat magnetometerRadius |})
    (zipObservable (_readVector constants.ACCEL_OFFSET_START 1)
      (zipObservable (_readNumber constants.ACCEL_RADIUS_LSB)
        (zipObservable (_readVector constants.GYRO_OFFSET_START 1)
          (zipObservable (_readVector constants.MAG_OFFSET_START 1)
            (_readNumber constants.MAG_RADIUS_LSB))))).

Definition _writeCalibrationData (calibrationData : Bno055CalibrationData Z) :
  M unit :=
  _writeByte constants.ACCEL_OFFSET_X_LSB (int16ToLsb (x (accelerometerOffset calibrationData))) ;;
  _writeByte constants.ACCEL_OFFSET_X_MSB (int16ToMsb (x (accelerometerOffset calibrationData))) ;;
  _writeByte constants.ACCEL_OFFSET_Y_LSB (int16ToLsb (y (accelerometerOffset calibrationData))) ;;
  _writeByte constants.ACCEL_OFFSET_Y_MSB (int16ToMsb (y (accelerometerOffset calibrationData))) ;;
  _writeByte constants.ACCEL_OFFSET_Z_LSB (int16ToLsb (z (accelerometerOffset calibrationData))) ;;
  _writeByte constants.ACCEL_OFFSET_Z_MSB (int16ToMsb (z (accelerometerOffset calibrationData))) ;;
  _writeByte constants.ACCEL_RADIUS_LSB (int16ToLsb (accelerometerRadius calibrationData)) ;;
  _writeByte constants.ACCEL_RADIUS_MSB (int16ToMsb (accelerometerRadius calibrationData)) ;;
  _writeByte constants.GYRO_OFFSET_X_LSB (int16ToLsb (x (gyroscopeOffset calibrationData))) ;;
  _writeByte constants.GYRO_OFFSET_X_MSB (int16ToMsb (x (gyroscopeOffset calibrationData))) ;;
  _writeByte constants.GYRO_OFFSET_Y_LSB (int16ToLsb (y (gyroscopeOffset calibrationData))) ;;
  _writeByte constants.GYRO_OFFSET_Y_MSB (int16ToMsb (y (gyroscopeOffset calibrationData))) ;;
  _writeByte constants.GYRO_OFFSET_Z_LSB (int16ToLsb (z (gyroscopeOffset calibrationData))) ;;
  _writeByte constants.GYRO_OFFSET_Z_MSB (int16ToMsb (z (gyroscopeOffset calibrationData))) ;;
  _writeByte constants.MAG_OFFSET_X_LSB (int16ToLsb (x (magnetometerOffset calibrationData))) ;;
  _writeByte constants.MAG_OFFSET_X_MSB (int16ToMsb (x (magnetometerOffset calibrationData))) ;;
  _writeByte constants.MAG_OFFSET_Y_LSB (int16ToLsb (y (magnetometerOffset calibrationData))) ;;
  _writeByte constants.MAG_OFFSET_Y_MSB (int16ToMsb (y (magnetometerOffset calibrationData))) ;;
  _writeByte constants.MAG_OFFSET_Z_LSB (int16ToLsb (z (magnetometerOffset calibrationData))) ;;
  _writeByte constants.MAG_OFFSET_Z_MSB (int16ToMsb (z (magnetometerOffset calibrationData))) ;;
  _writeByte constants.MAG_RADIUS_LSB (int16ToLsb (magnetometerRadius calibrationData)) ;;
  _writeByte constants.MAG_RADIUS_MSB (int16ToMsb (magnetometerRadius calibrationData)).

Definition _setOrAwaitCalibrationData (fuel : nat)
  (calibrationData : option (Bno055CalibrationData Z)) : M unit :=
  match calibrationData with
  | Some calibrationData => _writeCalibrationData calibrationData
  | None => _awaitCalibration fuel
  end.

(** [_initialize]: [preCalibrationInitializationStream] is what a
    subscription to the shared pre-calibration stream amounts to for this
    subscriber: the run of [_initializePreCalibration] when it connects
    the stream, nothing more once that run has completed. *)
Definition _initialize (preCalibrationInitializationStream : M unit)
  (fuel : nat) (mode : Bno055Mode)
  (calibrationData : option (Bno055CalibrationData Z)) : M unit :=
  preCalibrationInitializationStream ;;
  _setOrAwaitCalibrationData fuel calibrationData ;;
  _setMode (sensor mode).

(** The constructor's [this._initialize(options.mode,
    options.calibrationData)]. *)
Definition initialization (preCalibrationInitializationStream : M unit)
  (fuel : nat) : M unit :=
  _initialize preCalibrationInitializationStream fuel
    (Bno055Options.mode options) (Bno055Options.calibrationData options).

Definition getCalibrationData (preCalibrationInitializationStream : M unit)
  (fuel : nat) : M (Bno055CalibrationData float) :=
  preCalibrationInitializationStream ;;
  _awaitCalibration fuel ;;
  _readCalibration.

End Driver.

(** A transaction or timer without what it returned. *)
Definition request (e : Event) : Event :=
  match e with
  | ReadByte a r _ => ReadByte a r None
  | ReadI2cBlock a r n _ => ReadI2cBlock a r n None
  | WriteByte a r b _ => WriteByte a r b false
  | Timer ms => Timer ms
  end.

(** ** [publish<never>()(source).refCount()]

    The constructor wraps [_initializePreCalibration()] (and [_initialize])
    in rxjs 6's [publish()] and [refCount()].  [publish()] multicasts the
    source through one [Subject]; [refCount()] subscribes the source when
    the number of subscribers goes from 0 to 1 and unsubscribes it when the
    number returns to 0.  The source is a cold observable: each time it is
    subscribed it runs from its first step.  A [Subject] that has completed
    or failed hands that notification to every later subscriber at once,
    and the source is not subscribed again. *)
Module Published.

(** The terminal notifications of an [Observable<never>]. *)
Inductive Notification (E : Type) : Type :=
| Complete
| Fail (e : E).
Arguments Complete {E}.
Arguments Fail {E}.

(** What happens to a published stream. *)
Inductive Action : Type :=
| Subscribe                  (* a consumer subscribes *)
| Unsubscribe                (* a subscribed consumer leaves *)
| Observe (periods : nat).   (* the source, while subscribed, goes on for
                                [periods] more polling periods *)

Record t (Dev TErr : Type) : Type :=
  { (** the source observable, as a function of the polling periods it is
        observed for from the device state it is subscribed in *)
    source : nat -> Obs Dev TErr unit;
    (** the [Subject]: open, or stopped with its notification *)
    subject : option (Notification (Error TErr));
    (** subscribers counted by [refCount] *)
    refCount : nat;
    (** the subscription to the source, while there is one: the device
        state it was made in and the polling periods gone by since *)
    connection : option (Dev * nat);
    (** how many times the source has been subscribed, that is, how many
        times it has been started from its first step *)
    connections : nat;
    (** how many times a running source has been unsubscribed because
        the last subscriber left *)
    disconnections : nat;
    (** the transactions and timers of the subscriptions that have ended *)
    issued : list Event;
    (** the device state the last subscription left *)
    idle : Dev;
    (** the notifications handed to subscribers, latest first *)
    delivered : list (Notification (Error TErr)) }.
Arguments source {Dev TErr}.
Arguments subject {Dev TErr}.
Arguments refCount {Dev TErr}.
Arguments connection {Dev TErr}.
Arguments connections {Dev TErr}.
Arguments disconnections {Dev TErr}.
Arguments issued {Dev TErr}.
Arguments idle {Dev TErr}.
Arguments delivered {Dev TErr}.

Section Stream.

Context {Dev TErr : Type}.

(** The stream as the constructor leaves it, the device being in state
    [d]: nobody has subscribed, the source has not been subscribed. *)
Definition publish (source : nat -> Obs Dev TErr unit) (d : Dev) : t Dev TErr :=
  {| source := source; subject := None; refCount := 0; connection := None;
     connections := 0; disconnections := 0; issued := []; idle := d;
     delivered := [] |}.

(** The source ends with the notification [n], having issued [evs] and
    left the device in [d]: the subject stops and hands [n] to every
    subscriber. *)
Definition stop (s : t Dev TErr) (n : Notification (Error TErr))
  (evs : list Event) (d : Dev) : t Dev TErr :=
  {| source := source s; subject := Some n; refCount := 0;
     connection := None;
     connections := connections s; disconnections := disconnections s;
     issued := issued s ++ evs; idle := d;
     delivered := repeat n (refCount s) ++ delivered s |}.

(** The notification a run of the source ends with, if it has ended. *)
Definition notification (r : Outcome TErr unit) :
  option (Notification (Error TErr)) :=
  match r with
  | Done _ => Some Complete
  | Failed e => Some (Fail e)
  | Running => None
  end.

(** The subscribed source is run as far as the periods gone by allow; when
    it has completed or failed by then, the subject stops. *)
Definition settle (s : t Dev TErr) : t Dev TErr :=
  match connection s with
  | Some (d0, periods) =>
      match notification (outcome (source s periods d0)) with
      | Some n =>
          stop s n (events (source s periods d0))
            (device (source s periods d0))
      | None => s
      end
  | None => s
  end.

(** A consumer subscribes: a stopped subject notifies it at once;
    otherwise it is counted, and the source is subscribed unless it
    already is. *)
Definition subscribe (s : t Dev TErr) : t Dev TErr :=
  match subject s with
  | Some n =>
      {| source := source s; subject := subject s; refCount := refCount s;
         connection := connection s;
         connections := connections s; disconnections := disconnections s;
         issued := issued s; idle := idle s;
         delivered := n :: delivered s |}
  | None =>
      settle
        {| source := source s; subject := None; refCount := S (refCount s);
           connection :=
             match connection s with
             | Some c => Some c
             | None => Some (idle s, O)
             end;
           connections :=
             match connection s with
             | Some _ => connections s
             | None => S (connections s)
             end;
           disconnections := disconnections s;
           issued := issued s; idle := idle s;
           delivered := delivered s |}
  end.

(** A consumer leaves: when it was the last one, the source is
    unsubscribed where it stands. *)
Definition unsubscribe (s : t Dev TErr) : t Dev TErr :=
  match refCount s with
  | O => s
  | S O =>
      match connection s with
      | Some (d0, periods) =>
          {| source := source s; subject := subject s; refCount := O;
             connection := None;
             connections := connections s;
             disconnections := S (disconnections s);
             issued := issued s ++ events (source s periods d0);
             idle := device (source s periods d0);
             delivered := delivered s |}
      | None =>
          {| source := source s; subject := subject s; refCount := O;
             connection := None;
             connections := connections s;
             disconnections := disconnections s;
             issued := issued s; idle := idle s;
             delivered := delivered s |}
      end
  | S (S n) =>
      {| source := source s; subject := subject s; refCount := S n;
         connection := connection s;
         connections := connections s; disconnections := disconnections s;
         issued := issued s; idle := idle s;
         delivered := delivered s |}
  end.

(** Time goes by: a subscribed source goes on for [periods] more polling
    periods. *)
Definition observe (s : t Dev TErr) (periods : nat) : t Dev TErr :=
  match connection s with
  | Some (d0, sofar) =>
      settle
        {| source := source s; subject := subject s; refCount := refCount s;
           connection := Some (d0, (sofar + periods)%nat);
           connections := connections s; disconnections := disconnections s;
           issued := issued s; idle := idle s;
           delivered := delivered s |}
  | None => s
  end.

Definition step (s : t Dev TErr) (a : Action) : t Dev TErr :=
  match a with
  | Subscribe => subscribe s
  | Unsubscribe => unsubscribe s
  | Observe periods => observe s periods
  end.

Definition run (s : t Dev TErr) (actions : list Action) : t Dev TErr :=
  fold_left step actions s.

(** Everything the source has issued on the bus so far, over all its
    subscriptions. *)
Definition trace (s : t Dev TErr) : list Event :=
  issued s
  ++ match connection s with
     | Some (d0, periods) => events (source s periods d0)
     | None => []
     end.

(** What holds of a published stream at all times: an open subject has
    handed out nothing, and its source has been subscribed once more
    than it has been unsubscribed exactly while somebody is subscribed;
    a stopped subject has no subscriber left and hands out its one
    notification. *)
Definition consistent (s : t Dev TErr) : Prop :=
  match subject s with
  | Some n =>
      refCount s = O
      /\ connection s = None
      /\ connections s = S (disconnections s)
      /\ forall m, In m (delivered s) -> m = n
  | None =>
      delivered s = []
      /\ match connection s with
         | Some _ =>
             refCount s <> O /\ connections s = S (disconnections s)
         | None =>
             refCount s = O /\ connections s = disconnections s
         end
  end.

End Stream.

End Published.

(** [this._preCalibrationInitializationStream] of a driver constructed
    while the device is in state [d]:
    [publish<never>()(this._initializePreCalibration()).refCount()]. *)
Definition _preCalibrationInitializationStream {Dev TErr : Type}
  (i2cObject : I2cBus Dev TErr) (options : Bno055Options.t) (d : Dev) :
  Published.t Dev TErr :=
  Published.publish (_initializePreCalibration i2cObject options) d.

(** ** Simulated transports, for running the driver *)

(** A chip whose register contents are a function of the time in ms; every
    write is acknowledged. *)
Definition simulated (contents : Z -> Z -> Z) : I2cBus Z string :=
  {| readByte := fun _ register now => (inr (contents now register), now);
     readI2cBlock := fun _ register length now =>
       (inr (List.map (fun i => contents now (register + Z.of_nat i))
               (seq 0 (Z.to_nat length))), now);
     writeByte := fun _ _ _ now => (None, now);
     elapse := fun ms now => now + ms |}.

(** A transport that delivers one byte fewer than asked for. *)
Definition shortReads : I2cBus unit string :=
  {| readByte := fun _ _ d => (inr 0, d);
     readI2cBlock := fun _ _ length d =>
       (inr (repeat 0 (Z.to_nat length - 1)), d);
     writeByte := fun _ _ _ d => (None, d);
     elapse := fun _ d => d |}.

(** A transport whose every call reports the error [err]. *)
Definition failing (err : string) : I2cBus unit string :=
  {| readByte := fun _ _ d => (inl err, d);
     readI2cBlock := fun _ _ _ d => (inl err, d);
     writeByte := fun _ _ _ d => (Some err, d);
     elapse := fun _ d => d |}.







(** A chip that answers the read of its id with 0 before the time [ready]
    and with [0xA0] from then on; it is on page 0 and has passed its self
    test. *)
Definition bootsAt (ready : Z) (now register : Z) : Z :=
  if register =? constants.CHIP_ID
  then (if now <? ready then 0 else constants.BNO055_ID)
  else if register =? constants.SELFTEST_RESULT then 0x0F
  else 0.

(** A consumer subscribes and leaves after two polling periods, then a
    consumer subscribes again and stays. *)
Definition resubscription : list Published.Action :=
  [Published.Subscribe; Published.Observe 2; Published.Unsubscribe;
   Published.Subscribe; Published.Observe 2].


(** Every register holds its own address. *)
Definition ownAddress (now register : Z) : Z := register.

Definition defaultOptions : Bno055Options.t :=
  {| Bno055Options.address := None;
     Bno055Options.calibrationData := None;
     Bno055Options.mode := ndof;
     Bno055Options.debug := None |}.

Definition sampleCalibration : Bno055CalibrationData Z :=
  {| accelerometerOffset := {| x := 1; y := 258; z := 3 |};
     accelerometerRadius := 1000;
     gyroscopeOffset := {| x := -2; y := 0; z := 5 |};
     magnetometerOffset := {| x := 300; y := -300; z := 32767 |};
     magnetometerRadius := 480 |}.

(** A chip that keeps what is written to it: the state is the content of
    its registers. *)
Definition registerFile : I2cBus (Z -> Z) string :=
  {| readByte := fun _ register registers => (inr (registers register), registers);
     readI2cBlock := fun _ register length registers =>
       (inr (List.map (fun i => registers (register + Z.of_nat i))
               (seq 0 (Z.to_nat length))), registers);
     writeByte := fun _ register byte registers =>
       (None, fun r => if r =? register then byte else registers r);
     elapse := fun _ registers => registers |}.

(** [P] on each of the [2 ^ bits] integers from [base] on. *)
Fixpoint allBelow (P : Z -> bool) (bits : nat) (base : Z) : bool :=
  match bits with
  | O => P base
  | S b => allBelow P b base && allBelow P b (base + 2 ^ Z.of_nat b)
  end.

(** * Properties *)

(** ** The codec *)

Lemma ToInt32_small (v : Z) :
  -2147483648 <= v < 2147483648 -> JS.ToInt32 v = v.
Proof.
  intros H. unfold JS.ToInt32.
  change (2 ^ 31) with 2147483648 in *. change (2 ^ 32) with 4294967296.
  rewrite Z.mod_small; lia.
Qed.

Lemma bor_bytes (l m : Z) :
  0 <= l < 256 -> 0 <= m < 256 ->
  JS.bor (JS.shl m 8) l = m * 256 + l.
Proof.
  intros Hl Hm. unfold JS.bor, JS.shl.
  change (Z.land 8 31) with 8.
  rewrite (ToInt32_small m) by lia.
  rewrite Z.shiftl_mul_pow2 by lia. change (2 ^ 8) with 256.
  rewrite 2!(ToInt32_small (m * 256)) by lia.
  rewrite (ToInt32_small l) by lia.
  assert (Hdisj : Z.land (m * 256) l = 0); [|
    now rewrite (Z.add_nocarry_lxor _ _ Hdisj), (Z.lxor_lor _ _ Hdisj)].
  apply Z.bits_inj'. intros n Hn.
  rewrite Z.land_spec, Z.bits_0.
  destruct (Z.ltb_spec n 8) as [Hlt | Hge].
  - change 256 with (2 ^ 8). rewrite Z.mul_pow2_bits_low by lia. reflexivity.
  - replace l with (l mod 2 ^ 8) by (apply Z.mod_small; simpl; lia).
    rewrite Z.mod_pow2_bits_high by lia. apply andb_false_r.
Qed.

Lemma land_bit15 (w : Z) :
  Z.land 0x8000 w = if Z.testbit w 15 then 0x8000 else 0.
Proof.
  change 0x8000 with (2 ^ 15).
  apply Z.bits_inj'. intros n Hn.
  rewrite Z.land_spec, Z.pow2_bits_eqb by lia.
  destruct (Z.eqb_spec 15 n) as [<- | Hne]; cbn [andb].
  - destruct (Z.testbit w 15); [now rewrite Z.pow2_bits_true | now rewrite Z.bits_0].
  - destruct (Z.testbit w 15); [now rewrite Z.pow2_bits_false | now rewrite Z.bits_0].
Qed.

Lemma testbit15_word (w : Z) :
  0 <= w < 0x10000 -> Z.testbit w 15 = negb (w <? 0x8000).
Proof.
  intros Hw. rewrite Z.testbit_eqb by lia.
  change (2 ^ 15) with 32768.
  destruct (Z.ltb_spec w 0x8000) as [Hlt | Hge]; simpl.
  - now rewrite Z.div_small by lia.
  - replace (w / 32768) with 1; [reflexivity|].
    apply Z.div_unique with (r := w - 32768); lia.
Qed.

Lemma fromInt16_word (w : Z) :
  0 <= w < 0x10000 ->
  fromInt16 w = if w <? 0x8000 then w else w - 0x10000.
Proof.
  intros Hw. unfold fromInt16, JS.band, JS.truthy.
  rewrite (ToInt32_small w) by lia.
  change (JS.ToInt32 0x8000) with 0x8000.
  rewrite land_bit15, testbit15_word by lia.
  destruct (w <? 0x8000); reflexivity.
Qed.

Lemma int16ToLsb_nonneg (v : Z) :
  0 <= v <= 32767 -> int16ToLsb v = v mod 256.
Proof.
  intros Hv. unfold int16ToLsb, JS.band.
  destruct (Z.ltb_spec v 0) as [Hneg | _]; [lia|].
  rewrite (ToInt32_small v) by lia.
  change (JS.ToInt32 0xff) with (Z.ones 8).
  now rewrite Z.land_ones by lia.
Qed.

Lemma int16ToMsb_nonneg (v : Z) :
  0 <= v <= 32767 -> int16ToMsb v = v / 256.
Proof.
  intros Hv. unfold int16ToMsb, JS.band, JS.sar.
  destruct (Z.ltb_spec v 0) as [Hneg | _]; [lia|].
  change (Z.land 8 31) with 8.
  rewrite (ToInt32_small v) by lia.
  rewrite Z.shiftr_div_pow2 by lia. change (2 ^ 8) with 256.
  assert (0 <= v / 256 < 128).
  { split; [apply Z.div_pos; lia | apply Z.div_lt_upper_bound; lia]. }
  rewrite (ToInt32_small (v / 256)) by lia.
  change (JS.ToInt32 0xff) with (Z.ones 8).
  rewrite Z.land_ones by lia. apply Z.mod_small. change (2 ^ 8) with 256. lia.
Qed.

(** The encoders invert the decoder on the non-negative half of the range. *)
Lemma roundtrip_nonneg (v : Z) :
  0 <= v <= 32767 -> decodeInt16 (int16ToLsb v) (int16ToMsb v) = v.
Proof.
  intros Hv. unfold decodeInt16.
  rewrite int16ToLsb_nonneg, int16ToMsb_nonneg by exact Hv.
  assert (0 <= v / 256 < 128).
  { split; [apply Z.div_pos; lia | apply Z.div_lt_upper_bound; lia]. }
  assert (0 <= v mod 256 < 256) by (apply Z.mod_pos_bound; lia).
  rewrite bor_bytes by lia.
  assert (Hv' : v / 256 * 256 + v mod 256 = v).
  { rewrite (Z.div_mod v 256) at 3 by lia. ring. }
  rewrite Hv', fromInt16_word by lia.
  destruct (Z.ltb_spec v 0x8000); lia.
Qed.

(** On every negative input both encoders return [0xff]. *)
Lemma int16ToLsb_negative (v : Z) :
  -32768 <= v < 0 -> int16ToLsb v = 0xff.
Proof.
  intros Hv. unfold int16ToLsb, JS.and_, JS.truthy.
  destruct (Z.ltb_spec v 0) as [_ | Hge]; [|lia].
  destruct (Z.eqb_spec (v + 0x10000) 0); [lia | reflexivity].
Qed.

Lemma int16ToMsb_negative (v : Z) :
  -32768 <= v < 0 -> int16ToMsb v = 0xff.
Proof.
  intros Hv. unfold int16ToMsb, JS.and_, JS.truthy, JS.sar.
  destruct (Z.ltb_spec v 0) as [_ | Hge]; [|lia].
  change (Z.land 8 31) with 8.
  rewrite (ToInt32_small (v + 0x10000)) by lia.
  rewrite Z.shiftr_div_pow2 by lia. change (2 ^ 8) with 256.
  assert (128 <= (v + 0x10000) / 256).
  { apply Z.div_le_lower_bound; lia. }
  destruct (Z.eqb_spec ((v + 0x10000) / 256) 0); [lia | reflexivity].
Qed.

Lemma roundtrip_negative (v : Z) :
  -32768 <= v < 0 -> decodeInt16 (int16ToLsb v) (int16ToMsb v) = -1.
Proof.
  intros Hv. now rewrite int16ToLsb_negative, int16ToMsb_negative.
Qed.

(** C1 (the code departs from the specification): at [v = -2] the encoders
    give the bytes [0xff], [0xff], which decode to [-1], not to [-2].  Every
    negative int16 is encoded as [0xff], [0xff] and so decodes to [-1]; the
    round trip [decodeInt16 (int16ToLsb v) (int16ToMsb v) = v] holds on
    [0 .. 32767]. *)
Theorem C1_roundtrip_fails_at_minus_2 :
  int16ToLsb (-2) = 0xff /\ int16ToMsb (-2) = 0xff
  /\ decodeInt16 (int16ToLsb (-2)) (int16ToMsb (-2)) = -1
  /\ decodeInt16 (int16ToLsb (-2)) (int16ToMsb (-2)) <> -2
  /\ (forall v, -32768 <= v < 0 ->
        decodeInt16 (int16ToLsb v) (int16ToMsb v) = -1)
  /\ (forall v, 0 <= v <= 32767 ->
        decodeInt16 (int16ToLsb v) (int16ToMsb v) = v).
Proof.
  split; [reflexivity |]. split; [reflexivity |]. split; [reflexivity |].
  split; [rewrite roundtrip_negative by lia; discriminate |].
  split; [exact roundtrip_negative | exact roundtrip_nonneg].
Qed.

(** A decimal literal such as [0.16] denotes the nearest binary64 value,
    as the same literal does in JavaScript. *)
#[local] Set Warnings "-inexact-float".

(** C7: the buffer [10 00 F0 FF 64 00] with divisor 100 decodes to
    [{x: 0.16, y: -0.16, z: 1}]; the Y pair [0xFFF0] is read as [-16]
    before the division. *)
Theorem C7_vector_decode :
  _bufferToVector [0x10; 0x00; 0xF0; 0xFF; 0x64; 0x00] 100
    = {| x := 0.16%float; y := (-0.16)%float; z := 1%float |}
  /\ decodeInt16 0xF0 0xFF = -16
  /\ JS.bor (JS.shl 0xFF 8) 0xF0 = 0xFFF0.
Proof.
  repeat split; reflexivity.
Qed.

(** ** Runs of observables *)

Section Runs.

Context {Dev TErr : Type}.
Variable i2cObject : I2cBus Dev TErr.
Variable options : Bno055Options.t.

Lemma bind_Done_inv {A B} (m : Obs Dev TErr A) (k : A -> Obs Dev TErr B)
  d b t d' :
  bind m k d = (Done b, t, d') ->
  exists a t1 d1 t2,
    m d = (Done a, t1, d1) /\ k a d1 = (Done b, t2, d') /\ t = t1 ++ t2.
Proof.
  unfold bind. destruct (m d) as [[[a | e |] t1] d1]; try discriminate.
  destruct (k a d1) as [[r t2] d2] eqn:Hk.
  intros H. inversion H; subst. exists a, t1, d1, t2. auto.
Qed.

Lemma _readByte_Done register d byte t d' :
  _readByte i2cObject options register d = (Done byte, t, d') ->
  t = [ReadByte (address options) register (Some byte)].
Proof.
  unfold _readByte.
  destruct (readByte i2cObject (address options) register d) as [[err | b] d1];
    intros H; inversion H; subst; reflexivity.
Qed.

(** A loop leaves a period of polling only through a byte that fails its
    [continue] test. *)
Lemma pollRound_stops active :
  forall d active' t d',
    pollRound i2cObject options active d = (Done active', t, d') ->
    forall p, In p active ->
      In p active' \/
      exists byte,
        In (ReadByte (address options) (register p) (Some byte)) t
        /\ continue p byte = false.
Proof.
  induction active as [| q rest IH]; intros d active' t d' Hrun p Hp.
  - destruct Hp.
  - cbn [pollRound] in Hrun.
    apply bind_Done_inv in Hrun as (byte & t1 & d1 & t2 & Hread & Hrest & ->).
    apply bind_Done_inv in Hrest as (rest' & t3 & d3 & t4 & Hrec & Hret & ->).
    apply _readByte_Done in Hread as ->.
    unfold ret in Hret. inversion Hret; subst; clear Hret.
    destruct Hp as [<- | Hp].
    + destruct (continue q byte) eqn:Hc.
      * left. now left.
      * right. exists byte. split; [| exact Hc].
        apply in_or_app. left. now left.
    + destruct (IH _ _ _ _ Hrec p Hp) as [Hin | (b & Hin & Hc)].
      * left. destruct (continue q byte); [now right | exact Hin].
      * right. exists b. split; [| exact Hc].
        apply in_or_app. right. apply in_or_app. left. exact Hin.
Qed.

Lemma pollRounds_stops fuel :
  forall active d t d',
    pollRounds i2cObject options fuel active d = (Done tt, t, d') ->
    forall p, In p active ->
      exists byte,
        In (ReadByte (address options) (register p) (Some byte)) t
        /\ continue p byte = false.
Proof.
  induction fuel as [| fuel IH]; intros active d t d' Hrun p Hp.
  - discriminate.
  - cbn [pollRounds] in Hrun.
    apply bind_Done_inv in Hrun as (active' & t1 & d1 & t2 & Hround & Hnext & ->).
    destruct (pollRound_stops _ _ _ _ _ Hround p Hp) as [Hin | (b & Hin & Hc)].
    + destruct active' as [| q rest]; [destruct Hin |].
      apply bind_Done_inv in Hnext as ([] & t3 & d3 & t4 & _ & Hrec & ->).
      destruct (IH _ _ _ _ Hrec p Hin) as (b & Hb & Hc).
      exists b. split; [| exact Hc].
      apply in_or_app. right. apply in_or_app. right. exact Hb.
    + exists b. split; [| exact Hc]. apply in_or_app. left. exact Hin.
Qed.

(** Merged polling loops complete only when every one of them has read a
    byte that ends it. *)
Lemma mergeObservable_stops fuel pollers d t d' :
  mergeObservable i2cObject options fuel pollers d = (Done tt, t, d') ->
  forall p, In p pollers ->
    exists byte,
      In (ReadByte (address options) (register p) (Some byte)) t
      /\ continue p byte = false.
Proof.
  intros Hrun p Hp. unfold mergeObservable in Hrun.
  destruct pollers as [| q rest]; [destruct Hp |].
  apply bind_Done_inv in Hrun as ([] & t1 & d1 & t2 & _ & Hrec & ->).
  destruct (pollRounds_stops _ _ _ _ _ Hrec p Hp) as (b & Hb & Hc).
  exists b. split; [| exact Hc]. apply in_or_app. now right.
Qed.

Lemma _awaitCalibrationPart_stops bitsToCheck byte :
  continue (_awaitCalibrationPart bitsToCheck) byte = false
  <-> JS.band byte bitsToCheck = bitsToCheck.
Proof.
  unfold _awaitCalibrationPart; cbn [continue].
  rewrite negb_false_iff. apply Z.eqb_eq.
Qed.

End Runs.

(** ** Register I/O *)

Section RegisterIO.

Context {Dev TErr : Type}.
Variable i2cObject : I2cBus Dev TErr.
Variable options : Bno055Options.t.

Lemma events_mapObservable {A B} (f : A -> B) (m : Obs Dev TErr A) d :
  events (mapObservable f m d) = events (m d)
  /\ device (mapObservable f m d) = device (m d).
Proof.
  unfold mapObservable, bind, ret, events, device.
  destruct (m d) as [[[a | e |] t] d1]; simpl; auto using app_nil_r.
Qed.

Lemma events_zipObservable {A B} (a : Obs Dev TErr A) (b : Obs Dev TErr B) d :
  events (zipObservable a b d) = events (a d) ++ events (b (device (a d)))
  /\ device (zipObservable a b d) = device (b (device (a d))).
Proof.
  unfold zipObservable, events, device.
  destruct (a d) as [[ra ta] d1]; simpl.
  destruct (b d1) as [[rb tb] d2]; simpl. auto.
Qed.

Lemma request_readBytes register length d :
  List.map request (events (_readBytes i2cObject options register length d))
  = [ReadI2cBlock (address options) register length None].
Proof.
  unfold _readBytes, events.
  destruct (readI2cBlock i2cObject (address options) register length d)
    as [[err | buffer] d1]; reflexivity.
Qed.

End RegisterIO.

(** C8: a block read of [length] bytes fails with the transport's error when
    the transport reports one, fails with the driver's own
    "Incorrect number of bytes read" error, which is never a transport
    error, when the transport delivers another number of bytes, and emits a
    buffer only of exactly [length] bytes. *)
Theorem C8_block_read {Dev TErr : Type} (i2cObject : I2cBus Dev TErr)
  (options : Bno055Options.t) (register length : Z) (d : Dev)
  (answer : TErr + list Z) (d' : Dev) :
  readI2cBlock i2cObject (address options) register length d = (answer, d') ->
  match answer with
  | inl err =>
      outcome (_readBytes i2cObject options register length d)
      = Failed (FromTransport err)
  | inr buffer =>
      let bytesRead := Z.of_nat (List.length buffer) in
      if bytesRead =? length
      then outcome (_readBytes i2cObject options register length d)
           = Done buffer
      else outcome (_readBytes i2cObject options register length d)
           = Failed (Thrown (incorrectNumberOfBytes length bytesRead))
           /\ forall err,
               outcome (_readBytes i2cObject options register length d)
               <> Failed (FromTransport err)
  end
  /\ forall buffer,
      outcome (_readBytes i2cObject options register length d) = Done buffer ->
      Z.of_nat (List.length buffer) = length.
Proof.
  intros Hbus. unfold _readBytes, outcome. rewrite Hbus.
  destruct answer as [err | data]; cbn.
  - split; [reflexivity | discriminate].
  - destruct (Z.eqb_spec (Z.of_nat (List.length data)) length) as [Heq | Hne]; cbn.
    + split; [reflexivity |]. intros buffer H. inversion H; subst. reflexivity.
    + split; [split; [reflexivity | discriminate] | discriminate].
Qed.

(** A transport that delivers 5 of 6 bytes, and one that reports [EIO]. *)
Lemma C8_block_read_witness :
  (outcome (_readBytes shortReads defaultOptions 0x55 6 tt)
   = Failed (Thrown "Incorrect number of bytes read (expected: 6, recieved: 5)")
   /\ forall err,
       outcome (_readBytes shortReads defaultOptions 0x55 6 tt)
       <> Failed (FromTransport err))
  /\ outcome (_readBytes (failing "EIO") defaultOptions 0x55 6 tt)
     = Failed (FromTransport "EIO"%string).
Proof.
  split.
  - exact (proj1 (C8_block_read shortReads defaultOptions 0x55 6 tt
                    (inr [0; 0; 0; 0; 0]) tt eq_refl)).
  - exact (proj1 (C8_block_read (failing "EIO") defaultOptions 0x55 6 tt
                    (inl "EIO"%string) tt eq_refl)).
Defined.

(** C10, counterexample: [NaN] is a number other than zero, yet a driver
    constructed with the address [NaN] uses [0x28], which is not the
    address it was given. *)
Lemma C10_counterexample :
  PrimFloat.eqb PrimFloat.nan 0 = false
  /\ address {| Bno055Options.address := Some PrimFloat.nan;
                Bno055Options.calibrationData := None;
                Bno055Options.mode := ndof;
                Bno055Options.debug := None |} = 0x28%float
  /\ address {| Bno055Options.address := Some PrimFloat.nan;
                Bno055Options.calibrationData := None;
                Bno055Options.mode := ndof;
                Bno055Options.debug := None |} <> PrimFloat.nan.
Proof.
  split; [reflexivity |]. split; [reflexivity |].
  intros H. apply (f_equal PrimFloat.is_nan) in H. vm_compute in H.
  discriminate H.
Qed.

(** C10, as amended: an explicit address 0 gives [0x28], and so do [-0],
    [NaN] and an absent address; the bus address is [options.address]
    exactly when that is present, compares different from zero and is not
    [NaN]; and every transaction of the driver is addressed to it. *)
Theorem C10_address_default :
  (forall calibrationData mode debug,
      address {| Bno055Options.address := Some 0%float;
                 Bno055Options.calibrationData := calibrationData;
                 Bno055Options.mode := mode;
                 Bno055Options.debug := debug |} = 0x28%float)
  /\ (forall options,
        address options
        = match Bno055Options.address options with
          | Some a =>
              if (PrimFloat.eqb a 0 || PrimFloat.is_nan a)%bool
              then 0x28%float else a
          | None => 0x28%float
          end)
  /\ (forall options a,
        Bno055Options.address options = Some a ->
        PrimFloat.eqb a 0 = false -> PrimFloat.is_nan a = false ->
        address options = a)
  /\ (forall options a,
        Bno055Options.address options = Some a ->
        PrimFloat.eqb a 0 = true \/ PrimFloat.is_nan a = true ->
        address options = 0x28%float)
  /\ (forall Dev TErr (i2cObject : I2cBus Dev TErr) options register d,
        List.map request (events (_readByte i2cObject options register d))
        = [ReadByte (address options) register None])
  /\ (forall Dev TErr (i2cObject : I2cBus Dev TErr) options register length d,
        List.map request (events (_readBytes i2cObject options register length d))
        = [ReadI2cBlock (address options) register length None])
  /\ (forall Dev TErr (i2cObject : I2cBus Dev TErr) options register byte d,
        List.map request (events (_writeByte i2cObject options register byte d))
        = [WriteByte (address options) register byte false]).
Proof.
  assert (Hdefault : forall options,
            address options
            = match Bno055Options.address options with
              | Some a =>
                  if (PrimFloat.eqb a 0 || PrimFloat.is_nan a)%bool
                  then 0x28%float else a
              | None => 0x28%float
              end).
  { intros options. unfold address, JS.or_, JS.ToBoolean.
    destruct (Bno055Options.address options) as [a |]; [| reflexivity].
    destruct (PrimFloat.eqb a 0 || PrimFloat.is_nan a)%bool; reflexivity. }
  split; [reflexivity |]. split; [exact Hdefault |].
  split; [| split; [| repeat split]].
  - intros options a Ha Hzero Hnan. now rewrite Hdefault, Ha, Hzero, Hnan.
  - intros options a Ha Hfalsy. rewrite Hdefault, Ha.
    destruct Hfalsy as [-> | ->]; [reflexivity | now rewrite orb_true_r].
  - intros Dev TErr i2cObject options register d. unfold _readByte, events.
    destruct (readByte i2cObject (address options) register d) as [[err | b] d1];
      reflexivity.
  - intros. apply request_readBytes.
  - intros Dev TErr i2cObject options register byte d. unfold _writeByte, events.
    destruct (writeByte i2cObject (address options) register byte d) as [[err |] d1];
      reflexivity.
Qed.

(** The address [0x29] is kept. *)
Lemma C10_address_default_witness :
  address {| Bno055Options.address := Some 0x29%float;
             Bno055Options.calibrationData := None;
             Bno055Options.mode := ndof;
             Bno055Options.debug := None |} = 0x29%float.
Proof.
  apply (proj1 (proj2 (proj2 C10_address_default))
           {| Bno055Options.address := Some 0x29%float;
              Bno055Options.calibrationData := None;
              Bno055Options.mode := ndof;
              Bno055Options.debug := None |} 0x29%float);
    reflexivity.
Defined.

(** ** Initialization steps *)

Lemma append_period_inj (s t : string) :
  (s ++ ".")%string = (t ++ ".")%string -> s = t.
Proof.
  revert t. induction s as [| c s IH]; intros [| c' t] H; cbn in H.
  - reflexivity.
  - injection H as _ H. destruct t; discriminate H.
  - injection H as _ H. destruct s; discriminate H.
  - injection H as -> H. f_equal. now apply IH.
Qed.

Lemma toString16_inj (a b : Z) :
  0 <= a -> 0 <= b -> JS.toString16 a = JS.toString16 b -> a = b.
Proof.
  intros Ha Hb H. unfold JS.toString16 in H.
  assert (Hnonnil : forall n, N.to_hex_uint n <> Hexadecimal.Nil).
  { intros [| p]; [discriminate | apply HexadecimalPos.Unsigned.to_uint_nonnil]. }
  apply (f_equal HexadecimalString.NilZero.uint_of_string) in H.
  rewrite !HexadecimalString.NilZero.usu in H by apply Hnonnil.
  injection H as H. apply HexadecimalN.Unsigned.to_uint_inj in H.
  now apply Z2N.inj.
Qed.

(** The self-test error determines the byte that was read. *)
Lemma selfTestFailed_inj (a b : Z) :
  0 <= a -> 0 <= b -> selfTestFailed a = selfTestFailed b -> a = b.
Proof.
  intros Ha Hb H. unfold selfTestFailed in H. cbn [append] in H.
  injection H as H. apply append_period_inj in H.
  now apply toString16_inj.
Qed.

(** C4: when the read of [SELFTEST_RESULT] returns [byte], the self-test
    step issues that one read, completes exactly when the low four bits of
    [byte] are all set, and otherwise fails with the error
    "Self test failed, got 0x<byte in hexadecimal>.", which no other byte
    gives; the failure ends the sequence the step is part of: what follows
    it is not run. *)
Theorem C4_self_test_gate {Dev TErr : Type} (i2cObject : I2cBus Dev TErr)
  (options : Bno055Options.t) (d : Dev) (byte : Z) (d' : Dev) :
  readByte i2cObject (address options) constants.SELFTEST_RESULT d
    = (inr byte, d') ->
  events (_confirmSelfTest i2cObject options d)
    = [ReadByte (address options) constants.SELFTEST_RESULT (Some byte)]
  /\ (outcome (_confirmSelfTest i2cObject options d) = Done tt
      <-> JS.band byte 0xF = 0xF)
  /\ (JS.band byte 0xF <> 0xF ->
      outcome (_confirmSelfTest i2cObject options d)
      = Failed (Thrown (selfTestFailed byte)))
  /\ (JS.band byte 0xF <> 0xF ->
      forall next : Obs Dev TErr unit,
        (_confirmSelfTest i2cObject options ;; next) d
        = (Failed (Thrown (selfTestFailed byte)),
           [ReadByte (address options) constants.SELFTEST_RESULT (Some byte)],
           d'))
  /\ (forall other,
        0 <= byte -> 0 <= other ->
        selfTestFailed other = selfTestFailed byte -> other = byte).
Proof.
  intros Hbus.
  unfold _confirmSelfTest, bind, _readByte, outcome, events. rewrite Hbus.
  destruct (Z.eqb_spec (JS.band byte 0xF) 0xF) as [Heq | Hne]; cbn.
  - repeat split; auto using selfTestFailed_inj; intros H; contradiction.
  - repeat split; auto using selfTestFailed_inj; try discriminate.
    intros H. contradiction.
Qed.

(** The self-test bytes [0x0F] and [0x07]. *)
Lemma C4_self_test_gate_witness :
  outcome (_confirmSelfTest (simulated (fun _ _ => 0x0F)) defaultOptions 0)
    = Done tt
  /\ outcome (_confirmSelfTest (simulated (fun _ _ => 0x07)) defaultOptions 0)
     = Failed (Thrown "Self test failed, got 0x7.").
Proof.
  split.
  - apply (C4_self_test_gate (simulated (fun _ _ => 0x0F)) defaultOptions 0
             0x0F 0 eq_refl).
    reflexivity.
  - apply (C4_self_test_gate (simulated (fun _ _ => 0x07)) defaultOptions 0
             0x07 0 eq_refl).
    discriminate.
Defined.

(** C3 (the code departs from the specification): a mode switch is one
    write of the mode's code to [OPR_MODE] followed by a timer, but the
    timer is of 1000 ms, not of 30 ms: [_delay] waits 1000 ms whatever its
    argument. *)
Theorem C3_mode_switch_waits_1000 :
  (forall Dev TErr (i2cObject : I2cBus Dev TErr) delayInMs,
      _delay i2cObject delayInMs = timerObservable i2cObject 1000)
  /\ (forall contents options mode now,
        _setMode (simulated contents) options mode now
        = (Done tt,
           [WriteByte (address options) constants.OPR_MODE (modeValue mode) true;
            Timer 1000],
           now + 1000))
  /\ events (_setMode (simulated ownAddress) defaultOptions config 0)
     = [WriteByte 0x28 0x3D 0x00 true; Timer 1000]
  /\ events (_setMode (simulated ownAddress) defaultOptions (sensor ndof) 0)
     <> [WriteByte 0x28 0x3D 0x0C true; Timer 30].
Proof.
  repeat split. discriminate.
Qed.

(** ** Calibration *)

(** C2 (the code departs from the specification): calibration-data
    retrieval issues five block reads and emits one value, but the three
    offset vectors are all read at [0x55]: [GYRO_OFFSET_START] and
    [MAG_OFFSET_START] are [0x55] in the register table, not [0x61] and
    [0x5B].  On a chip whose every register holds its own address the three
    offsets come out equal. *)
Theorem C2_offset_reads_all_at_0x55 :
  (forall Dev TErr (i2cObject : I2cBus Dev TErr) options d,
      List.map request (events (_readCalibration i2cObject options d))
      = [ReadI2cBlock (address options) 0x55 6 None;
         ReadI2cBlock (address options) 0x67 2 None;
         ReadI2cBlock (address options) 0x55 6 None;
         ReadI2cBlock (address options) 0x55 6 None;
         ReadI2cBlock (address options) 0x69 2 None])
  /\ _readCalibration (simulated ownAddress) defaultOptions 0
     = (Done
          {| accelerometerOffset :=
               {| x := 22101%float; y := 22615%float; z := 23129%float |};
             accelerometerRadius := 26727%float;
             gyroscopeOffset :=
               {| x := 22101%float; y := 22615%float; z := 23129%float |};
             magnetometerOffset :=
               {| x := 22101%float; y := 22615%float; z := 23129%float |};
             magnetometerRadius := 27241%float |},
        [ReadI2cBlock 0x28 0x55 6 (Some [0x55; 0x56; 0x57; 0x58; 0x59; 0x5A]);
         ReadI2cBlock 0x28 0x67 2 (Some [0x67; 0x68]);
         ReadI2cBlock 0x28 0x55 6 (Some [0x55; 0x56; 0x57; 0x58; 0x59; 0x5A]);
         ReadI2cBlock 0x28 0x55 6 (Some [0x55; 0x56; 0x57; 0x58; 0x59; 0x5A]);
         ReadI2cBlock 0x28 0x69 2 (Some [0x69; 0x6A])],
        0)
  /\ constants.GYRO_OFFSET_START = 0x55 /\ constants.GYRO_OFFSET_X_LSB = 0x61
  /\ constants.MAG_OFFSET_START = 0x55 /\ constants.MAG_OFFSET_X_LSB = 0x5B.
Proof.
  split; [| repeat split].
  intros Dev TErr i2cObject options d.
  unfold _readCalibration, _readVector, _readNumber.
  repeat (first [ rewrite (proj1 (events_mapObservable _ _ _))
                | rewrite (proj2 (events_mapObservable _ _ _))
                | rewrite (proj1 (events_zipObservable _ _ _))
                | rewrite (proj2 (events_zipObservable _ _ _)) ]).
  rewrite !map_app, !request_readBytes. reflexivity.
Qed.

(** On the simulated chip a period of polling reads every loop's register
    and keeps the loops whose byte passes [continue]. *)
Lemma pollRound_simulated contents options active now :
  pollRound (simulated contents) options active now
  = (Done (filter (fun p => continue p (contents now (register p))) active),
     List.map
       (fun p => ReadByte (address options) (register p)
                   (Some (contents now (register p))))
       active,
     now).
Proof.
  induction active as [| p rest IH]; [reflexivity |].
  cbn [pollRound filter List.map]. unfold bind at 1.
  cbn [_readByte simulated readByte]. unfold bind at 1. rewrite IH.
  unfold ret. cbn [app]. rewrite app_nil_r.
  destruct (continue p (contents now (register p))); reflexivity.
Qed.

(** Merged loops started at the time [now] complete within [fuel] periods
    exactly when each of them finds its own stop condition met in one of
    these periods, not necessarily the same one; until then they are
    running, and they never fail. *)
Lemma pollRounds_simulated contents options fuel :
  forall active now,
    active <> [] ->
    (outcome (pollRounds (simulated contents) options fuel active now) = Done tt
     <-> forall p, In p active ->
           exists k,
             (k < fuel)%nat
             /\ continue p (contents (now + 100 * Z.of_nat k) (register p))
                = false)
    /\ (outcome (pollRounds (simulated contents) options fuel active now)
        <> Done tt ->
        outcome (pollRounds (simulated contents) options fuel active now)
        = Running).
Proof.
  induction fuel as [| fuel IH]; intros active now Hne.
  - split; [split; [discriminate |] | reflexivity].
    intros H. destruct active as [| p rest]; [contradiction |].
    destruct (H p (or_introl eq_refl)) as (k & Hk & _). lia.
  - remember (pollRounds (simulated contents) options (S fuel) active now)
      as run eqn:Hrun.
    cbn [pollRounds] in Hrun. unfold bind at 1 in Hrun.
    rewrite pollRound_simulated in Hrun.
    set (keep := fun p => continue p (contents now (register p))) in Hrun.
    assert (Hnow : forall p, contents (now + 100 * Z.of_nat 0) (register p)
                             = contents now (register p)).
    { intros p. change (Z.of_nat 0) with 0. now rewrite Z.mul_0_r, Z.add_0_r. }
    destruct (filter keep active) as [| q rest] eqn:Hfilter.
    + subst run. unfold ret, outcome; cbn [fst].
      split; [split; [intros _ | reflexivity] | intros H; now destruct H].
      intros p Hp. exists O. split; [lia |]. rewrite Hnow.
      destruct (keep p) eqn:Hkeep; [| exact Hkeep].
      assert (Hin : In p (filter keep active)) by (apply filter_In; auto).
      rewrite Hfilter in Hin. destruct Hin.
    + unfold bind at 1 in Hrun. cbn [timerObservable simulated elapse] in Hrun.
      assert (Hsub : forall p, In p (q :: rest) <-> In p active /\ keep p = true).
      { intros p. rewrite <- Hfilter. apply filter_In. }
      assert (Hshift : forall k,
                now + 100 + 100 * Z.of_nat k = now + 100 * Z.of_nat (S k)) by lia.
      destruct (IH (q :: rest) (now + 100)) as [Hdone Hrunning]; [discriminate |].
      destruct (pollRounds (simulated contents) options fuel (q :: rest) (now + 100))
        as [[r evs] d1].
      subst run. unfold outcome in *; cbn [fst] in *.
      split; [| exact Hrunning].
      rewrite Hdone. split.
      * intros Hall p Hp. destruct (keep p) eqn:Hkeep.
        -- destruct (Hall p) as (k & Hk & Hstop); [now apply Hsub |].
           exists (S k). split; [lia |]. now rewrite <- Hshift.
        -- exists O. split; [lia |]. now rewrite Hnow.
      * intros Hall p Hp. apply Hsub in Hp as [Hp Hkeep].
        destruct (Hall p Hp) as ([| k] & Hk & Hstop).
        -- rewrite Hnow in Hstop. unfold keep in Hkeep. congruence.
        -- exists k. split; [lia |]. now rewrite Hshift.
Qed.


Lemma calibrationParts_masks p :
  In p calibrationParts
  <-> exists mask, In mask [0x03; 0x0C; 0x30; 0xC0]
                   /\ p = _awaitCalibrationPart mask.
Proof.
  unfold calibrationParts. cbn [In]. split.
  - intros [<- | [<- | [<- | [<- | []]]]];
      eexists; (split; [| reflexivity]); cbn [In]; auto.
  - intros (mask & [<- | [<- | [<- | [<- | []]]]] & ->); auto.
Qed.




(** ** Shared pre-calibration initialization *)

Section PublishedFacts.

Import Published.
Context {Dev TErr : Type}.

Lemma settle_consistent (s : t Dev TErr) :
  consistent s -> consistent (settle s).
Proof.
  unfold settle. destruct (connection s) as [[d0 periods] |] eqn:Hc; [| auto].
  destruct (notification (outcome (source s periods d0))) as [n |]; [| auto].
  unfold consistent. destruct (subject s) as [m |]; rewrite Hc.
  - intros (_ & Hnone & _). discriminate Hnone.
  - intros (Hdel & _ & Hconn). cbn. rewrite Hdel, app_nil_r.
    repeat split; auto. intros m Hm. now apply repeat_spec in Hm.
Qed.

Lemma step_consistent (s : t Dev TErr) (a : Action) :
  consistent s -> consistent (step s a).
Proof.
  intros Hs. destruct a as [| | periods]; cbn [step].
  - unfold subscribe. destruct (subject s) as [n |] eqn:Hsubj.
    + unfold consistent in *. cbn [subject refCount connection connections
        disconnections delivered]. rewrite Hsubj in *.
      destruct Hs as (H1 & H2 & H3 & H4). repeat split; auto.
      intros m [<- | Hm]; auto.
    + apply settle_consistent. unfold consistent in *.
      cbn [subject refCount connection connections disconnections delivered].
      rewrite Hsubj in Hs. destruct Hs as (Hdel & Hconn).
      destruct (connection s); destruct Hconn as [Hrc Hn];
        repeat split; auto; congruence.
  - unfold unsubscribe. destruct (refCount s) as [| [| n]] eqn:Hrc; [exact Hs | |];
      unfold consistent in *;
      (destruct (subject s) as [m |] eqn:Hsubj;
         [destruct Hs as (H & _); congruence |]);
      destruct Hs as (Hdel & Hconn).
    + destruct (connection s) as [[d0 periods] |];
        cbn [subject refCount connection connections disconnections delivered];
        destruct Hconn as [Hrc' Hn];
        repeat split; auto; congruence.
    + cbn [subject refCount connection connections disconnections delivered].
      destruct (connection s); destruct Hconn as [Hrc' Hn];
        repeat split; auto; congruence.
  - unfold observe. destruct (connection s) as [[d0 sofar] |] eqn:Hc; [| exact Hs].
    apply settle_consistent. unfold consistent in *.
    cbn [subject refCount connection connections disconnections delivered].
    destruct (subject s) as [m |]; rewrite Hc in Hs;
      [destruct Hs as (_ & H & _); discriminate H | exact Hs].
Qed.

Lemma run_consistent (actions : list Action) :
  forall s : t Dev TErr, consistent s -> consistent (run s actions).
Proof.
  induction actions as [| a actions IH]; intros s Hs; [exact Hs |].
  apply IH, step_consistent, Hs.
Qed.

Lemma publish_consistent (source : nat -> Obs Dev TErr unit) (d : Dev) :
  consistent (publish source d).
Proof. cbv. auto. Qed.

(** The source is subscribed at most once more than it has been
    unsubscribed. *)
Lemma connections_bound (s : t Dev TErr) :
  consistent s -> (connections s <= 1 + disconnections s)%nat.
Proof.
  unfold consistent. destruct (subject s).
  - intros (_ & _ & -> & _). lia.
  - intros (_ & Hconn). destruct (connection s); destruct Hconn as [_ ->]; lia.
Qed.

Lemma settle_disconnections (s : t Dev TErr) :
  disconnections (settle s) = disconnections s.
Proof.
  unfold settle. destruct (connection s) as [[d0 periods] |]; [| reflexivity].
  destruct (notification _); reflexivity.
Qed.

(** The source is unsubscribed only when a consumer leaves. *)
Lemma run_without_unsubscribe (actions : list Action) :
  forall s : t Dev TErr,
    ~ In Unsubscribe actions ->
    disconnections (run s actions) = disconnections s.
Proof.
  induction actions as [| a actions IH]; intros s Hno; [reflexivity |].
  cbn [run fold_left]. fold (run (step s a) actions).
  rewrite IH by (intros H; apply Hno; now right).
  destruct a as [| | periods]; cbn [step].
  - unfold subscribe. destruct (subject s); [reflexivity |].
    now rewrite settle_disconnections.
  - exfalso. apply Hno. now left.
  - unfold observe. destruct (connection s) as [[d0 sofar] |]; [| reflexivity].
    now rewrite settle_disconnections.
Qed.

(** Once the source has ended it is never subscribed again, and issues
    nothing more. *)
Lemma run_stopped (actions : list Action) :
  forall (s : t Dev TErr) n,
    subject s = Some n -> refCount s = O -> connection s = None ->
    subject (run s actions) = Some n
    /\ connections (run s actions) = connections s
    /\ trace (run s actions) = trace s.
Proof.
  induction actions as [| a actions IH]; intros s n Hsubj Hrc Hc; [auto |].
  cbn [run fold_left]. fold (run (step s a) actions).
  assert (Hstep : subject (step s a) = Some n /\ refCount (step s a) = O
                  /\ connection (step s a) = None
                  /\ connections (step s a) = connections s
                  /\ trace (step s a) = trace s).
  { destruct a as [| | periods]; cbn [step].
    - unfold subscribe, trace. rewrite Hsubj. cbn. now rewrite Hc.
    - unfold unsubscribe. rewrite Hrc. auto.
    - unfold observe. rewrite Hc. auto. }
  destruct Hstep as (H1 & H2 & H3 & H4 & H5).
  destruct (IH _ _ H1 H2 H3) as (H6 & H7 & H8).
  split; [exact H6 |]. split; congruence.
Qed.

(** While the source is running, any number of subscribers are counted on
    its one subscription. *)
Lemma run_subscribers (cold : nat -> Obs Dev TErr unit) (d : Dev) (k : nat) :
  notification (outcome (cold O d)) = None ->
  run (publish cold d) (repeat Subscribe (S k))
  = {| source := cold; subject := None; refCount := S k;
       connection := Some (d, O); connections := 1; disconnections := 0;
       issued := []; idle := d; delivered := [] |}.
Proof.
  intros Hrunning. induction k as [| k IH].
  - cbn. unfold subscribe, settle. cbn. now rewrite Hrunning.
  - change (repeat Subscribe (S (S k)))
      with (Subscribe :: repeat Subscribe (S k)).
    rewrite (repeat_cons (S k) Subscribe).
    unfold run in *. rewrite fold_left_app, IH. cbn.
    unfold subscribe, settle. cbn. now rewrite Hrunning.
Qed.

(** Subscribers of one subscription of the source all receive the
    notification that run ends with. *)
Lemma run_shared (cold : nat -> Obs Dev TErr unit) (d : Dev)
  (k periods : nat) n :
  notification (outcome (cold O d)) = None ->
  notification (outcome (cold periods d)) = Some n ->
  run (publish cold d) (repeat Subscribe (S k) ++ [Observe periods])
  = {| source := cold; subject := Some n; refCount := 0;
       connection := None; connections := 1; disconnections := 0;
       issued := events (cold periods d);
       idle := device (cold periods d);
       delivered := repeat n (S k) |}.
Proof.
  intros Hrunning Hends. pose proof (run_subscribers cold d k Hrunning) as Hs.
  unfold run in *. rewrite fold_left_app, Hs. cbn [fold_left step].
  unfold observe, settle. cbn [connection source Nat.add].
  rewrite Hends. unfold stop. cbn [source connections disconnections issued
    delivered refCount app]. now rewrite app_nil_r.
Qed.

End PublishedFacts.

(** The pre-calibration phase starts with a polling loop, so it is running
    until a period has gone by. *)
Lemma _initializePreCalibration_starts {Dev TErr : Type}
  (i2cObject : I2cBus Dev TErr) (options : Bno055Options.t) (d : Dev) :
  outcome (_initializePreCalibration i2cObject options 0 d) = Running.
Proof. reflexivity. Qed.

(** C6 (the code departs from the specification): the pre-calibration
    phase is not limited to one execution.  The constructor leaves the
    published stream unstarted; the first subscriber starts the phase, and
    when the last subscriber leaves while it is running, the next
    subscriber starts it again from its first step.  On a chip that
    answers with its id from 300 ms on, a consumer that subscribes and
    leaves after two polling periods, followed by a second consumer,
    makes the boot confirmation loop run twice.  As long as no consumer
    leaves the phase is started at most once, all subscribers of a run
    receive the notification it ends with, and once it has ended it is
    never started again. *)
Theorem C6_pre_calibration_restarts :
  (forall Dev TErr (i2cObject : I2cBus Dev TErr) options d,
      Published.connections
        (_preCalibrationInitializationStream i2cObject options d) = 0%nat
      /\ Published.trace
           (_preCalibrationInitializationStream i2cObject options d) = [])
  /\ Published.connections
       (Published.run
          (_preCalibrationInitializationStream (simulated (bootsAt 300))
             defaultOptions 0)
          resubscription) = 2%nat
  /\ Published.trace
       (Published.run
          (_preCalibrationInitializationStream (simulated (bootsAt 300))
             defaultOptions 0)
          resubscription)
     = [Timer 0; ReadByte 0x28 0x00 (Some 0x00);
        Timer 100; ReadByte 0x28 0x00 (Some 0x00);
        Timer 100]
         ++ [Timer 0; ReadByte 0x28 0x00 (Some 0x00);
             Timer 100; ReadByte 0x28 0x00 (Some 0xA0);
             ReadByte 0x28 0x07 (Some 0x00);
             ReadByte 0x28 0x36 (Some 0x0F);
             WriteByte 0x28 0x3D 0x00 true; Timer 1000;
             WriteByte 0x28 0x3F 0x20 true; Timer 1000;
             Timer 0; ReadByte 0x28 0x00 (Some 0xA0)]
  /\ Published.subject
       (Published.run
          (_preCalibrationInitializationStream (simulated (bootsAt 300))
             defaultOptions 0)
          resubscription) = Some Published.Complete
  /\ (forall Dev TErr (i2cObject : I2cBus Dev TErr) options d actions,
        (Published.connections
           (Published.run
              (_preCalibrationInitializationStream i2cObject options d)
              actions)
         <= 1 + Published.disconnections
                  (Published.run
                     (_preCalibrationInitializationStream i2cObject options d)
                     actions))%nat
        /\ (~ In Published.Unsubscribe actions ->
            (Published.connections
               (Published.run
                  (_preCalibrationInitializationStream i2cObject options d)
                  actions) <= 1)%nat))
  /\ (forall Dev TErr (i2cObject : I2cBus Dev TErr) options d k periods n,
        Published.notification
          (outcome (_initializePreCalibration i2cObject options periods d))
        = Some n ->
        Published.connections
          (Published.run
             (_preCalibrationInitializationStream i2cObject options d)
             (repeat Published.Subscribe (S k) ++ [Published.Observe periods]))
        = 1%nat
        /\ Published.trace
             (Published.run
                (_preCalibrationInitializationStream i2cObject options d)
                (repeat Published.Subscribe (S k)
                   ++ [Published.Observe periods]))
           = events (_initializePreCalibration i2cObject options periods d)
        /\ Published.delivered
             (Published.run
                (_preCalibrationInitializationStream i2cObject options d)
                (repeat Published.Subscribe (S k)
                   ++ [Published.Observe periods]))
           = repeat n (S k))
  /\ (forall Dev TErr (i2cObject : I2cBus Dev TErr) options d actions n,
        Published.subject
          (Published.run
             (_preCalibrationInitializationStream i2cObject options d)
             actions) = Some n ->
        forall more,
          Published.subject
            (Published.run
               (_preCalibrationInitializationStream i2cObject options d)
               (actions ++ more)) = Some n
          /\ Published.connections
               (Published.run
                  (_preCalibrationInitializationStream i2cObject options d)
                  (actions ++ more))
             = Published.connections
                 (Published.run
                    (_preCalibrationInitializationStream i2cObject options d)
                    actions)
          /\ Published.trace
               (Published.run
                  (_preCalibrationInitializationStream i2cObject options d)
                  (actions ++ more))
             = Published.trace
                 (Published.run
                    (_preCalibrationInitializationStream i2cObject options d)
                    actions)).
Proof.
  split; [intros; split; reflexivity |].
  split; [reflexivity |]. split; [reflexivity |]. split; [reflexivity |].
  unfold _preCalibrationInitializationStream.
  split; [| split].
  - intros Dev TErr i2cObject options d actions.
    pose proof (run_consistent actions _
                  (publish_consistent
                     (_initializePreCalibration i2cObject options) d)) as Hc.
    apply connections_bound in Hc. split; [exact Hc |].
    intros Hno. rewrite (run_without_unsubscribe actions _ Hno) in Hc. exact Hc.
  - intros Dev TErr i2cObject options d k periods n Hends.
    rewrite (run_shared (_initializePreCalibration i2cObject options) d k
               periods n
               (f_equal Published.notification
                  (_initializePreCalibration_starts i2cObject options d))
               Hends).
    unfold Published.trace. cbn. now rewrite app_nil_r.
  - intros Dev TErr i2cObject options d actions n Hn more.
    pose proof (run_consistent actions _
                  (publish_consistent
                     (_initializePreCalibration i2cObject options) d)) as Hc.
    unfold Published.consistent in Hc. rewrite Hn in Hc.
    destruct Hc as (Hrc & Hconn & _).
    pose proof (run_stopped more _ n Hn Hrc Hconn) as Hm.
    unfold Published.run in *. rewrite !fold_left_app. exact Hm.
Qed.

(** ** Applying or awaiting calibration data *)

Section AcknowledgedWrites.

Context {Dev TErr : Type}.
Variable i2cObject : I2cBus Dev TErr.
Variable options : Bno055Options.t.

Hypothesis acknowledged :
  forall register byte s,
    fst (writeByte i2cObject (address options) register byte s) = None.

Lemma run_writeByte register byte d :
  _writeByte i2cObject options register byte d
  = (Done tt, [WriteByte (address options) register byte true],
     snd (writeByte i2cObject (address options) register byte d)).
Proof.
  unfold _writeByte. pose proof (acknowledged register byte d) as H.
  destruct (writeByte i2cObject (address options) register byte d) as [r d1].
  cbn in H. subst r. reflexivity.
Qed.

Lemma run_setMode mode d :
  _setMode i2cObject options mode d
  = (Done tt,
     [WriteByte (address options) constants.OPR_MODE (modeValue mode) true;
      Timer 1000],
     elapse i2cObject 1000
       (snd (writeByte i2cObject (address options) constants.OPR_MODE
               (modeValue mode) d))).
Proof.
  unfold _setMode, bind. rewrite run_writeByte. reflexivity.
Qed.

Lemma run_writeCalibrationData c d :
  outcome (_writeCalibrationData i2cObject options c d) = Done tt
  /\ events (_writeCalibrationData i2cObject options c d)
     = [WriteByte (address options) 0x55 (int16ToLsb (x (accelerometerOffset c))) true;
        WriteByte (address options) 0x56 (int16ToMsb (x (accelerometerOffset c))) true;
        WriteByte (address options) 0x57 (int16ToLsb (y (accelerometerOffset c))) true;
        WriteByte (address options) 0x58 (int16ToMsb (y (accelerometerOffset c))) true;
        WriteByte (address options) 0x59 (int16ToLsb (z (accelerometerOffset c))) true;
        WriteByte (address options) 0x5A (int16ToMsb (z (accelerometerOffset c))) true;
        WriteByte (address options) 0x67 (int16ToLsb (accelerometerRadius c)) true;
        WriteByte (address options) 0x68 (int16ToMsb (accelerometerRadius c)) true;
        WriteByte (address options) 0x61 (int16ToLsb (x (gyroscopeOffset c))) true;
        WriteByte (address options) 0x62 (int16ToMsb (x (gyroscopeOffset c))) true;
        WriteByte (address options) 0x63 (int16ToLsb (y (gyroscopeOffset c))) true;
        WriteByte (address options) 0x64 (int16ToMsb (y (gyroscopeOffset c))) true;
        WriteByte (address options) 0x65 (int16ToLsb (z (gyroscopeOffset c))) true;
        WriteByte (address options) 0x66 (int16ToMsb (z (gyroscopeOffset c))) true;
        WriteByte (address options) 0x5B (int16ToLsb (x (magnetometerOffset c))) true;
        WriteByte (address options) 0x5C (int16ToMsb (x (magnetometerOffset c))) true;
        WriteByte (address options) 0x5D (int16ToLsb (y (magnetometerOffset c))) true;
        WriteByte (address options) 0x5E (int16ToMsb (y (magnetometerOffset c))) true;
        WriteByte (address options) 0x5F (int16ToLsb (z (magnetometerOffset c))) true;
        WriteByte (address options) 0x60 (int16ToMsb (z (magnetometerOffset c))) true;
        WriteByte (address options) 0x69 (int16ToLsb (magnetometerRadius c)) true;
        WriteByte (address options) 0x6A (int16ToMsb (magnetometerRadius c)) true].
Proof.
  unfold _writeCalibrationData, bind, outcome, events.
  repeat (rewrite run_writeByte; cbn [app fst snd]).
  split; reflexivity.
Qed.

Lemma run_initialize_ready fuel mode calibrationData d :
  _initialize i2cObject options (ret tt) fuel mode calibrationData d
  = match _setOrAwaitCalibrationData i2cObject options fuel calibrationData d with
    | (Done _, t, d1) =>
        (Done tt,
         t ++ [WriteByte (address options) constants.OPR_MODE
                 (modeValue (sensor mode)) true; Timer 1000],
         elapse i2cObject 1000
           (snd (writeByte i2cObject (address options) constants.OPR_MODE
                   (modeValue (sensor mode)) d1)))
    | (Failed e, t, d1) => (Failed e, t, d1)
    | (Running, t, d1) => (Running, t, d1)
    end.
Proof.
  unfold _initialize, bind, ret.
  destruct (_setOrAwaitCalibrationData i2cObject options fuel calibrationData d)
    as [[[[] | e |] t] d1]; try reflexivity.
  rewrite run_setMode. reflexivity.
Qed.

End AcknowledgedWrites.

(** On a transport that acknowledges writes, initialization with
    calibration data issues exactly 22 byte writes, the byte of
    [int16ToLsb] then the byte of [int16ToMsb] of each of the eleven
    fields, to [0x55..0x5A] (accelerometer offset X, Y, Z), [0x67, 0x68]
    (accelerometer radius), [0x61..0x66] (gyroscope offset X, Y, Z),
    [0x5B..0x60] (magnetometer offset X, Y, Z) and [0x69, 0x6A]
    (magnetometer radius), in this order.  Without calibration data it
    writes the code [0x0B] of [ndof_fmc_off] to [OPR_MODE] and then runs
    the merged calibration loops.  In both cases the write of the
    requested mode follows only when that step has completed. *)
Lemma setOrAwaitCalibrationData_runs {Dev TErr : Type}
  (i2cObject : I2cBus Dev TErr) (options : Bno055Options.t) (fuel : nat)
  (acknowledged :
     forall register byte s,
       fst (writeByte i2cObject (address options) register byte s) = None) :
  (forall c d,
      outcome (_setOrAwaitCalibrationData i2cObject options fuel (Some c) d)
      = Done tt
      /\ events (_setOrAwaitCalibrationData i2cObject options fuel (Some c) d)
         = [WriteByte (address options) 0x55 (int16ToLsb (x (accelerometerOffset c))) true;
            WriteByte (address options) 0x56 (int16ToMsb (x (accelerometerOffset c))) true;
            WriteByte (address options) 0x57 (int16ToLsb (y (accelerometerOffset c))) true;
            WriteByte (address options) 0x58 (int16ToMsb (y (accelerometerOffset c))) true;
            WriteByte (address options) 0x59 (int16ToLsb (z (accelerometerOffset c))) true;
            WriteByte (address options) 0x5A (int16ToMsb (z (accelerometerOffset c))) true;
            WriteByte (address options) 0x67 (int16ToLsb (accelerometerRadius c)) true;
            WriteByte (address options) 0x68 (int16ToMsb (accelerometerRadius c)) true;
            WriteByte (address options) 0x61 (int16ToLsb (x (gyroscopeOffset c))) true;
            WriteByte (address options) 0x62 (int16ToMsb (x (gyroscopeOffset c))) true;
            WriteByte (address options) 0x63 (int16ToLsb (y (gyroscopeOffset c))) true;
            WriteByte (address options) 0x64 (int16ToMsb (y (gyroscopeOffset c))) true;
            WriteByte (address options) 0x65 (int16ToLsb (z (gyroscopeOffset c))) true;
            WriteByte (address options) 0x66 (int16ToMsb (z (gyroscopeOffset c))) true;
            WriteByte (address options) 0x5B (int16ToLsb (x (magnetometerOffset c))) true;
            WriteByte (address options) 0x5C (int16ToMsb (x (magnetometerOffset c))) true;
            WriteByte (address options) 0x5D (int16ToLsb (y (magnetometerOffset c))) true;
            WriteByte (address options) 0x5E (int16ToMsb (y (magnetometerOffset c))) true;
            WriteByte (address options) 0x5F (int16ToLsb (z (magnetometerOffset c))) true;
            WriteByte (address options) 0x60 (int16ToMsb (z (magnetometerOffset c))) true;
            WriteByte (address options) 0x69 (int16ToLsb (magnetometerRadius c)) true;
            WriteByte (address options) 0x6A (int16ToMsb (magnetometerRadius c)) true]
      /\ List.length
           (events (_setOrAwaitCalibrationData i2cObject options fuel (Some c) d))
         = 22%nat)
  /\ (forall d,
        let monitor :=
          mergeObservable i2cObject options fuel calibrationParts
            (elapse i2cObject 1000
               (snd (writeByte i2cObject (address options) constants.OPR_MODE
                       0x0B d))) in
        _setOrAwaitCalibrationData i2cObject options fuel None d
        = (outcome monitor,
           [WriteByte (address options) constants.OPR_MODE 0x0B true; Timer 1000]
             ++ events monitor,
           device monitor))
  /\ (forall mode calibrationData d,
        let step :=
          _setOrAwaitCalibrationData i2cObject options fuel calibrationData d in
        let run :=
          _initialize i2cObject options (ret tt) fuel mode calibrationData d in
        match outcome step with
        | Done _ =>
            outcome run = Done tt
            /\ events run
               = events step
                   ++ [WriteByte (address options) constants.OPR_MODE
                         (modeValue (sensor mode)) true; Timer 1000]
        | Failed e => outcome run = Failed e /\ events run = events step
        | Running => outcome run = Running /\ events run = events step
        end).
Proof.
  split; [| split].
  - intros c d. cbn [_setOrAwaitCalibrationData].
    destruct (run_writeCalibrationData i2cObject options acknowledged c d)
      as [Ho He].
    split; [exact Ho |]. split; [exact He |]. now rewrite He.
  - intros d monitor. subst monitor.
    cbn [_setOrAwaitCalibrationData]. unfold _awaitCalibration, bind.
    rewrite (run_setMode i2cObject options acknowledged).
    unfold outcome, events, device.
    destruct (mergeObservable i2cObject options fuel calibrationParts _)
      as [[r t] d1]. reflexivity.
  - intros mode calibrationData d step run. subst step run.
    rewrite (run_initialize_ready i2cObject options acknowledged).
    destruct (_setOrAwaitCalibrationData i2cObject options fuel calibrationData d)
      as [[[[] | e |] t] d1]; cbn; auto.
Qed.

(** C9 (the code departs from the specification): with calibration data
    the 22 writes go to the LSB and then the MSB register of each field in the
    stated order, and without it the switch to [ndof_fmc_off] and the
    calibration loops precede the requested mode, but the bytes written for
    a negative field are [0xff], [0xff] and not its low and high byte: the
    gyroscope offset X of [-2] is written as [0xff] to [0x61] where its low
    byte is [0xfe]. *)
Theorem C9_negative_fields_written_as_0xff :
  (forall fuel,
      _setOrAwaitCalibrationData (simulated ownAddress) defaultOptions fuel
        (Some sampleCalibration) 0
      = (Done tt,
         [WriteByte 0x28 0x55 1 true; WriteByte 0x28 0x56 0 true;
          WriteByte 0x28 0x57 2 true; WriteByte 0x28 0x58 1 true;
          WriteByte 0x28 0x59 3 true; WriteByte 0x28 0x5A 0 true;
          WriteByte 0x28 0x67 232 true; WriteByte 0x28 0x68 3 true;
          WriteByte 0x28 0x61 0xff true; WriteByte 0x28 0x62 0xff true;
          WriteByte 0x28 0x63 0 true; WriteByte 0x28 0x64 0 true;
          WriteByte 0x28 0x65 5 true; WriteByte 0x28 0x66 0 true;
          WriteByte 0x28 0x5B 44 true; WriteByte 0x28 0x5C 1 true;
          WriteByte 0x28 0x5D 0xff true; WriteByte 0x28 0x5E 0xff true;
          WriteByte 0x28 0x5F 255 true; WriteByte 0x28 0x60 127 true;
          WriteByte 0x28 0x69 224 true; WriteByte 0x28 0x6A 1 true],
         0))
  /\ x (gyroscopeOffset sampleCalibration) = -2
  /\ JS.band (-2) 0xff = 0xfe
  /\ JS.band (JS.sar (-2) 8) 0xff = 0xff
  /\ y (magnetometerOffset sampleCalibration) = -300
  /\ JS.band (-300) 0xff = 0xd4
  /\ JS.band (JS.sar (-300) 8) 0xff = 0xfe
  /\ (forall contents options fuel c now,
        -32768 <= x (gyroscopeOffset c) < 0 ->
        nth_error
          (events (_setOrAwaitCalibrationData (simulated contents) options fuel
                     (Some c) now)) 8
        = Some (WriteByte (address options) 0x61 0xff true)
        /\ nth_error
             (events (_setOrAwaitCalibrationData (simulated contents) options
                        fuel (Some c) now)) 9
           = Some (WriteByte (address options) 0x62 0xff true))
  /\ (forall contents options fuel mode now,
        exists monitor,
          events (_initialize (simulated contents) options (ret tt) fuel mode
                    None now)
          = [WriteByte (address options) 0x3D 0x0B true; Timer 1000]
              ++ monitor).
Proof.
  split; [reflexivity |]. split; [reflexivity |]. split; [reflexivity |].
  split; [reflexivity |]. split; [reflexivity |]. split; [reflexivity |].
  split; [reflexivity |]. split.
  - intros contents options fuel c now Hneg.
    destruct (setOrAwaitCalibrationData_runs (simulated contents) options fuel
                (fun _ _ _ => eq_refl)) as (Hsome & _).
    destruct (Hsome c now) as (_ & -> & _). cbn [nth_error].
    now rewrite int16ToLsb_negative, int16ToMsb_negative.
  - intros contents options fuel mode now.
    destruct (setOrAwaitCalibrationData_runs (simulated contents) options fuel
                (fun _ _ _ => eq_refl)) as (_ & Hnone & Hinit).
    specialize (Hinit mode None now). cbv zeta in Hinit.
    assert (Hev : exists monitor,
              events (_setOrAwaitCalibrationData (simulated contents) options
                        fuel None now)
              = [WriteByte (address options) 0x3D 0x0B true; Timer 1000]
                  ++ monitor).
    { rewrite (Hnone now). eexists. reflexivity. }
    destruct Hev as (monitor & Hev).
    destruct (outcome (_setOrAwaitCalibrationData (simulated contents) options
                         fuel None now));
      destruct Hinit as [_ ->]; rewrite Hev.
    + eexists. rewrite <- app_assoc. reflexivity.
    + now exists monitor.
    + now exists monitor.
Qed.

(** * Further properties *)

(** ** The codec on bytes *)

Lemma decodeInt16_bytes (lsb msb : Z) :
  0 <= lsb < 256 -> 0 <= msb < 256 ->
  decodeInt16 lsb msb
  = if msb <? 128 then msb * 256 + lsb else msb * 256 + lsb - 65536.
Proof.
  intros Hl Hm. unfold decodeInt16.
  rewrite bor_bytes, fromInt16_word by lia.
  destruct (Z.ltb_spec (msb * 256 + lsb) 0x8000);
    destruct (Z.ltb_spec msb 128); lia.
Qed.

(** X1: two bytes decode to the 16-bit two's-complement value of the word
    [msb * 256 + lsb]: the result lies in [-32768 .. 32767], is congruent
    to the word modulo 65536, and is negative exactly when bit 7 of the MSB
    is set. *)
Theorem decodeInt16_twos_complement (lsb msb : Z) :
  0 <= lsb < 256 -> 0 <= msb < 256 ->
  -32768 <= decodeInt16 lsb msb <= 32767
  /\ (decodeInt16 lsb msb) mod 65536 = msb * 256 + lsb
  /\ (decodeInt16 lsb msb < 0 <-> 128 <= msb).
Proof.
  intros Hl Hm. rewrite decodeInt16_bytes by lia.
  destruct (Z.ltb_spec msb 128) as [Hlt | Hge].
  - repeat split; try lia. apply Z.mod_small. lia.
  - repeat split; try lia.
    replace (msb * 256 + lsb - 65536) with (msb * 256 + lsb + (-1) * 65536) by lia.
    rewrite Z.mod_add by lia. apply Z.mod_small. lia.
Qed.

Lemma decodeInt16_twos_complement_witness :
  -32768 <= decodeInt16 0xF0 0xFF <= 32767
  /\ (decodeInt16 0xF0 0xFF) mod 65536 = 0xFF * 256 + 0xF0
  /\ (decodeInt16 0xF0 0xFF < 0 <-> 128 <= 0xFF).
Proof.
  apply (decodeInt16_twos_complement 0xF0 0xFF); lia.
Defined.

(** X2: different byte pairs decode to different values. *)
Theorem decodeInt16_injective (lsb msb lsb' msb' : Z) :
  0 <= lsb < 256 -> 0 <= msb < 256 -> 0 <= lsb' < 256 -> 0 <= msb' < 256 ->
  lsb <> lsb' \/ msb <> msb' ->
  decodeInt16 lsb msb <> decodeInt16 lsb' msb'.
Proof.
  intros Hl Hm Hl' Hm' Hne. rewrite !decodeInt16_bytes by lia.
  destruct (Z.ltb_spec msb 128); destruct (Z.ltb_spec msb' 128); lia.
Qed.

Lemma decodeInt16_injective_witness :
  decodeInt16 0xF0 0xFF = -16 /\ decodeInt16 0xF0 0x7F = 32752
  /\ decodeInt16 0xF0 0xFF <> decodeInt16 0xF0 0x7F.
Proof.
  split; [reflexivity |]. split; [reflexivity |].
  apply (decodeInt16_injective 0xF0 0xFF 0xF0 0x7F); lia.
Defined.

Lemma band_0xff_byte (v : Z) : 0 <= JS.band v 0xff <= 255.
Proof.
  unfold JS.band. change (JS.ToInt32 0xff) with (Z.ones 8).
  rewrite Z.land_ones by lia. change (2 ^ 8) with 256.
  pose proof (Z.mod_pos_bound (JS.ToInt32 v) 256). lia.
Qed.

(** X3: whatever integer they are given, both encoders return a byte. *)
Theorem encoders_return_bytes (int16 : Z) :
  0 <= int16ToLsb int16 <= 255 /\ 0 <= int16ToMsb int16 <= 255.
Proof.
  unfold int16ToLsb, int16ToMsb, JS.and_, JS.truthy.
  destruct (int16 <? 0).
  - split.
    + destruct (Z.eqb_spec (int16 + 0x10000) 0) as [-> | _]; cbn; lia.
    + destruct (Z.eqb_spec (JS.sar (int16 + 0x10000) 8) 0) as [-> | _]; cbn; lia.
  - split; apply band_0xff_byte.
Qed.

(** X4: encoding what two bytes decode to gives the two bytes back when
    bit 7 of the MSB is clear, that is, when they decode to a value from 0
    to 32767. *)
Theorem encode_decoded_bytes (lsb msb : Z) :
  0 <= lsb < 256 -> 0 <= msb < 128 ->
  int16ToLsb (decodeInt16 lsb msb) = lsb
  /\ int16ToMsb (decodeInt16 lsb msb) = msb.
Proof.
  intros Hl Hm. rewrite decodeInt16_bytes by lia.
  destruct (Z.ltb_spec msb 128) as [Hlt | Hge]; [| lia].
  rewrite int16ToLsb_nonneg, int16ToMsb_nonneg by lia.
  split.
  - symmetry. apply (Z.mod_unique_pos _ _ msb); lia.
  - symmetry. apply (Z.div_unique_pos _ _ _ lsb); lia.
Qed.

Lemma encode_decoded_bytes_witness :
  int16ToLsb (decodeInt16 0x64 0x00) = 0x64
  /\ int16ToMsb (decodeInt16 0x64 0x00) = 0x00.
Proof.
  apply (encode_decoded_bytes 0x64 0x00); lia.
Defined.

(** ** Decoded physical units *)

Lemma allBelow_spec (P : Z -> bool) (bits : nat) :
  forall base,
    allBelow P bits base = true ->
    forall v, base <= v < base + 2 ^ Z.of_nat bits -> P v = true.
Proof.
  induction bits as [| b IH]; intros base H v Hv.
  - cbn in Hv. replace v with base by lia. exact H.
  - cbn [allBelow] in H. apply andb_true_iff in H as [H1 H2].
    rewrite Nat2Z.inj_succ, Z.pow_succ_r in Hv by lia.
    destruct (Z.lt_ge_cases v (base + 2 ^ Z.of_nat b)).
    + apply (IH base H1). lia.
    + apply (IH _ H2). lia.
Qed.

(** Dividing a raw count by 1 is exact. *)
Lemma divide_by_1_exact (v : Z) :
  -32768 <= v <= 32767 -> divide v 1 = JS.toFloat v.
Proof.
  intros Hv. apply FloatAxioms.Leibniz.eqb_spec.
  apply (allBelow_spec
           (fun v => PrimFloat.Leibniz.eqb (divide v 1) (JS.toFloat v))
           16 (-32768)).
  - vm_compute. reflexivity.
  - change (2 ^ Z.of_nat 16) with 65536. lia.
Qed.

Lemma divide_quaternion_bounded (v : Z) :
  -32768 <= v <= 32767 ->
  (PrimFloat.leb (-2) (divide v constants.QUATERNION_DATA_LSB_TO_DPS_DIVISOR)
   && PrimFloat.ltb (divide v constants.QUATERNION_DATA_LSB_TO_DPS_DIVISOR) 2)%bool
  = true.
Proof.
  intros Hv.
  apply (allBelow_spec
           (fun v =>
              (PrimFloat.leb (-2)
                 (divide v constants.QUATERNION_DATA_LSB_TO_DPS_DIVISOR)
               && PrimFloat.ltb
                    (divide v constants.QUATERNION_DATA_LSB_TO_DPS_DIVISOR) 2)%bool)
           16 (-32768)).
  - vm_compute. reflexivity.
  - change (2 ^ Z.of_nat 16) with 65536. lia.
Qed.

Lemma index_byte (buffer : list Z) (i : nat) :
  Forall (fun byte => 0 <= byte < 256) buffer ->
  0 <= JS.index buffer i < 256.
Proof.
  intros H. unfold JS.index. revert i.
  induction H as [| b rest Hb _ IH]; intros [| i]; cbn; try lia. apply IH.
Qed.

Lemma decodeInt16_index_range (buffer : list Z) (i j : nat) :
  Forall (fun byte => 0 <= byte < 256) buffer ->
  -32768 <= decodeInt16 (JS.index buffer i) (JS.index buffer j) <= 32767.
Proof.
  intros H. pose proof (index_byte buffer i H). pose proof (index_byte buffer j H).
  rewrite decodeInt16_bytes by lia.
  destruct (Z.ltb_spec (JS.index buffer j) 128); lia.
Qed.

(** X5: whatever bytes the buffer holds, every component of the decoded
    quaternion lies in the interval from -2 (included) to 2 (excluded). *)
Theorem quaternion_components_bounded (buffer : list Z) :
  Forall (fun byte => 0 <= byte < 256) buffer ->
  (PrimFloat.leb (-2) (qw (_bufferToQuaternion buffer))
   && PrimFloat.ltb (qw (_bufferToQuaternion buffer)) 2)%bool = true
  /\ (PrimFloat.leb (-2) (qx (_bufferToQuaternion buffer))
      && PrimFloat.ltb (qx (_bufferToQuaternion buffer)) 2)%bool = true
  /\ (PrimFloat.leb (-2) (qy (_bufferToQuaternion buffer))
      && PrimFloat.ltb (qy (_bufferToQuaternion buffer)) 2)%bool = true
  /\ (PrimFloat.leb (-2) (qz (_bufferToQuaternion buffer))
      && PrimFloat.ltb (qz (_bufferToQuaternion buffer)) 2)%bool = true.
Proof.
  intros H. unfold _bufferToQuaternion. cbn [qw qx qy qz].
  repeat split; apply divide_quaternion_bounded, decodeInt16_index_range, H.
Qed.

Lemma quaternion_components_bounded_witness :
  (PrimFloat.leb (-2)
     (qw (_bufferToQuaternion [0x00; 0x80; 0xFF; 0x7F; 0x00; 0x40; 0x00; 0x00]))
   && PrimFloat.ltb
        (qw (_bufferToQuaternion [0x00; 0x80; 0xFF; 0x7F; 0x00; 0x40; 0x00; 0x00]))
        2)%bool = true.
Proof.
  apply (quaternion_components_bounded
           [0x00; 0x80; 0xFF; 0x7F; 0x00; 0x40; 0x00; 0x00]).
  repeat constructor; lia.
Defined.

(** X6: with the divisor 1, as the calibration offsets are read, the
    fields of the decoded vector are the raw 16-bit counts themselves,
    without rounding. *)
Theorem vector_of_raw_counts (buffer : list Z) :
  Forall (fun byte => 0 <= byte < 256) buffer ->
  _bufferToVector buffer 1
  = {| x := JS.toFloat (decodeInt16 (JS.index buffer 0) (JS.index buffer 1));
       y := JS.toFloat (decodeInt16 (JS.index buffer 2) (JS.index buffer 3));
       z := JS.toFloat (decodeInt16 (JS.index buffer 4) (JS.index buffer 5)) |}.
Proof.
  intros H. unfold _bufferToVector.
  now rewrite !divide_by_1_exact by (apply decodeInt16_index_range, H).
Qed.

Lemma vector_of_raw_counts_witness :
  _bufferToVector [0x10; 0x00; 0xF0; 0xFF; 0x64; 0x00] 1
  = {| x := 16%float; y := (-16)%float; z := 100%float |}.
Proof.
  apply (vector_of_raw_counts [0x10; 0x00; 0xF0; 0xFF; 0x64; 0x00]).
  repeat constructor; lia.
Defined.

(** ** Steps on the bus *)

(** X7: the thirteen modes have thirteen different codes, all between
    [0x00] and [0x0C]: the byte written to [OPR_MODE] determines the
    mode. *)
Theorem modeValue_codes :
  (forall mode, 0x00 <= modeValue mode <= 0x0C)
  /\ (forall mode mode', modeValue mode = modeValue mode' -> mode = mode').
Proof.
  split.
  - intros [| []]; cbv; split; discriminate.
  - intros [| []] [| []] H; try reflexivity; discriminate H.
Qed.

(** X8: on a chip that keeps what is written to it, [_ensurePage] leaves
    [PAGE_ID] holding the page asked for and no other register changed,
    and it issues no write when the page is already selected. *)
Theorem ensurePage_selects_page (options : Bno055Options.t) (page : Z)
  (registers : Z -> Z) :
  outcome (_ensurePage registerFile options page registers) = Done tt
  /\ device (_ensurePage registerFile options page registers)
       constants.PAGE_ID = page
  /\ (forall register,
        register <> constants.PAGE_ID ->
        device (_ensurePage registerFile options page registers) register
        = registers register)
  /\ (registers constants.PAGE_ID = page ->
      events (_ensurePage registerFile options page registers)
      = [ReadByte (address options) constants.PAGE_ID (Some page)])
  /\ (registers constants.PAGE_ID <> page ->
      events (_ensurePage registerFile options page registers)
      = [ReadByte (address options) constants.PAGE_ID
           (Some (registers constants.PAGE_ID));
         WriteByte (address options) constants.PAGE_ID page true]).
Proof.
  unfold _ensurePage, bind, _readByte, _writeByte, ret, outcome, events, device.
  cbn [registerFile readByte writeByte].
  destruct (Z.eqb_spec (registers constants.PAGE_ID) page) as [Heq | Hne];
    cbn [fst snd app].
  - repeat split; auto; try congruence.
  - rewrite Z.eqb_refl. repeat split; auto; try congruence.
    intros register Hr. destruct (Z.eqb_spec register constants.PAGE_ID); congruence.
Qed.

(** ** Polling loops *)

Section Polling.

Context {Dev TErr : Type}.
Variable i2cObject : I2cBus Dev TErr.
Variable options : Bno055Options.t.

Lemma bind_events {A B} (m : Obs Dev TErr A) (k : A -> Obs Dev TErr B) d :
  events (bind m k d)
  = events (m d)
      ++ match outcome (m d) with
         | Done a => events (k a (device (m d)))
         | _ => []
         end.
Proof.
  unfold bind, events, outcome, device.
  destruct (m d) as [[[a | e |] t1] d1]; cbn [fst snd];
    [| now rewrite app_nil_r ..].
  destruct (k a d1) as [[r t2] d2]. reflexivity.
Qed.

Lemma bind_outcome {A B} (m : Obs Dev TErr A) (k : A -> Obs Dev TErr B) d :
  outcome (bind m k d)
  = match outcome (m d) with
    | Done a => outcome (k a (device (m d)))
    | Failed e => Failed e
    | Running => Running
    end.
Proof.
  unfold bind, events, outcome, device.
  destruct (m d) as [[[a | e |] t1] d1]; cbn [fst snd]; try reflexivity.
  destruct (k a d1) as [[r t2] d2]. reflexivity.
Qed.

Lemma bind_Forall {A B} (P : Event -> Prop) (m : Obs Dev TErr A)
  (k : A -> Obs Dev TErr B) d :
  Forall P (events (m d)) ->
  (forall a, outcome (m d) = Done a -> Forall P (events (k a (device (m d))))) ->
  Forall P (events (bind m k d)).
Proof.
  intros Hm Hk. rewrite bind_events. apply Forall_app. split; [exact Hm |].
  destruct (outcome (m d)) as [a | e |]; auto.
Qed.

Lemma _readByte_events register d :
  exists answer,
    events (_readByte i2cObject options register d)
    = [ReadByte (address options) register answer].
Proof.
  unfold _readByte, events.
  destruct (readByte i2cObject (address options) register d) as [[err | b] d1];
    eexists; reflexivity.
Qed.

Lemma pollRound_incl active :
  forall d active',
    outcome (pollRound i2cObject options active d) = Done active' ->
    incl active' active.
Proof.
  induction active as [| p rest IH]; intros d active' H.
  - cbn in H. injection H as <-. apply incl_refl.
  - cbn [pollRound] in H. rewrite bind_outcome in H.
    destruct (outcome (_readByte i2cObject options (register p) d))
      as [byte | e |]; try discriminate H.
    rewrite bind_outcome in H.
    destruct (outcome (pollRound i2cObject options rest _))
      as [rest' | e |] eqn:Hrest; try discriminate H.
    cbn in H. injection H as <-. apply IH in Hrest.
    destruct (continue p byte).
    + intros q [<- | Hq]; [now left | right; now apply Hrest].
    + intros q Hq. right. now apply Hrest.
Qed.

Lemma pollRound_reads (pollers : list Poller) active :
  incl active pollers ->
  forall d,
    Forall
      (fun e =>
         exists p answer,
           In p pollers /\ e = ReadByte (address options) (register p) answer)
      (events (pollRound i2cObject options active d)).
Proof.
  induction active as [| p rest IH]; intros Hincl d; [constructor |].
  cbn [pollRound]. apply bind_Forall.
  - destruct (_readByte_events (register p) d) as [answer ->].
    constructor; [| constructor]. exists p, answer. split; [| reflexivity].
    apply Hincl. now left.
  - intros byte _. apply bind_Forall.
    + apply IH. intros q Hq. apply Hincl. now right.
    + intros rest' _. constructor.
Qed.

Lemma pollRounds_reads (pollers : list Poller) fuel :
  forall active d,
    incl active pollers ->
    Forall
      (fun e =>
         e = Timer 0 \/ e = Timer 100
         \/ exists p answer,
             In p pollers /\ e = ReadByte (address options) (register p) answer)
      (events (pollRounds i2cObject options fuel active d)).
Proof.
  induction fuel as [| fuel IH]; intros active d Hincl; [constructor |].
  cbn [pollRounds]. apply bind_Forall.
  - eapply Forall_impl; [| apply (pollRound_reads pollers active Hincl)].
    cbn. auto.
  - intros active' Hround. apply pollRound_incl in Hround.
    destruct active' as [| q rest]; [constructor |].
    apply bind_Forall; [cbn; constructor; [auto | constructor] |].
    intros _ _. apply IH. intros p Hp. now apply Hincl, Hround.
Qed.





End Polling.

Lemma mergeObservable_reads {Dev TErr : Type} (i2cObject : I2cBus Dev TErr)
  (options : Bno055Options.t) (fuel : nat) (pollers : list Poller) (d : Dev) :
  Forall
    (fun e =>
       e = Timer 0 \/ e = Timer 100
       \/ exists p answer,
           In p pollers /\ e = ReadByte (address options) (register p) answer)
    (events (mergeObservable i2cObject options fuel pollers d)).
Proof.
  unfold mergeObservable. destruct pollers as [| q rest]; [constructor |].
  apply bind_Forall; [cbn; constructor; [auto | constructor] |].
  intros _ _. apply pollRounds_reads, incl_refl.
Qed.

(** X9: polling loops only wait and read: every event of merged polling
    loops is the first tick, a tick of 100 ms, or a byte read of the
    register of one of the loops at the driver's address; they issue no
    write and no block read, whatever the transport answers. *)
Theorem polling_only_reads {Dev TErr : Type} (i2cObject : I2cBus Dev TErr)
  (options : Bno055Options.t) (fuel : nat) (pollers : list Poller) (d : Dev) :
  Forall
    (fun e =>
       e = Timer 0 \/ e = Timer 100
       \/ exists p answer,
           In p pollers /\ e = ReadByte (address options) (register p) answer)
    (events (mergeObservable i2cObject options fuel pollers d))
  /\ (forall a register byte acknowledged,
        ~ In (WriteByte a register byte acknowledged)
            (events (mergeObservable i2cObject options fuel pollers d)))
  /\ (forall a register length answer,
        ~ In (ReadI2cBlock a register length answer)
            (events (mergeObservable i2cObject options fuel pollers d))).
Proof.
  pose proof (mergeObservable_reads i2cObject options fuel pollers d) as H.
  split; [exact H |]. rewrite Forall_forall in H.
  split; intros * Hin; apply H in Hin as [Hin | [Hin | (p & read & _ & Hin)]];
    discriminate Hin.
Qed.



(** X11: on the simulated chip, boot confirmation started at the time
    [now] completes within [fuel] polling periods exactly when one of
    these periods reads the id [0xA0] from [CHIP_ID]; until then it is
    running: it has no timeout and never fails. *)
Theorem confirmBoot_waits_for_id (contents : Z -> Z -> Z)
  (options : Bno055Options.t) (fuel : nat) (now : Z) :
  (outcome (_confirmBoot (simulated contents) options fuel now) = Done tt
   <-> exists k,
       (k < fuel)%nat
       /\ contents (now + 100 * Z.of_nat k) constants.CHIP_ID
          = constants.BNO055_ID)
  /\ (outcome (_confirmBoot (simulated contents) options fuel now) <> Done tt ->
      outcome (_confirmBoot (simulated contents) options fuel now) = Running).
Proof.
  assert (Hrun : outcome (_confirmBoot (simulated contents) options fuel now)
                 = outcome (pollRounds (simulated contents) options fuel
                              [{| register := constants.CHIP_ID;
                                  continue := fun byte =>
                                    negb (byte =? constants.BNO055_ID) |}]
                              now)).
  { unfold _confirmBoot, poll, mergeObservable. rewrite bind_outcome.
    cbn [timerObservable outcome device fst snd simulated elapse].
    now rewrite Z.add_0_r. }
  rewrite Hrun.
  destruct (pollRounds_simulated contents options fuel
              [{| register := constants.CHIP_ID;
                  continue := fun byte => negb (byte =? constants.BNO055_ID) |}]
              now) as [Hdone Hrunning]; [discriminate |].
  split; [| exact Hrunning].
  rewrite Hdone. split.
  - intros Hall. destruct (Hall _ (or_introl eq_refl)) as (k & Hk & Hstop).
    exists k. split; [exact Hk |]. cbn [continue register] in Hstop.
    now apply negb_false_iff, Z.eqb_eq in Hstop.
  - intros (k & Hk & Hid) p [<- | []]. exists k. split; [exact Hk |].
    cbn [continue register]. now apply negb_false_iff, Z.eqb_eq.
Qed.

(** ** The order of the initialization steps *)

Section Steps.

Context {Dev TErr : Type}.
Variable i2cObject : I2cBus Dev TErr.
Variable options : Bno055Options.t.

Lemma bind_In {A B} (m : Obs Dev TErr A) (k : A -> Obs Dev TErr B) d e :
  In e (events (bind m k d))
  <-> In e (events (m d))
      \/ exists a, outcome (m d) = Done a /\ In e (events (k a (device (m d)))).
Proof.
  rewrite bind_events, in_app_iff.
  destruct (outcome (m d)) as [a | err |]; split; intros [H | H]; auto.
  - right. now exists a.
  - destruct H as (a' & Ha & H). injection Ha as <-. now right.
  - destruct H.
  - destruct H as (a' & Ha & _). discriminate Ha.
  - destruct H.
  - destruct H as (a' & Ha & _). discriminate Ha.
Qed.

Lemma bind_events_Done {A B} (m : Obs Dev TErr A) (k : A -> Obs Dev TErr B)
  d a :
  outcome (m d) = Done a ->
  events (bind m k d) = events (m d) ++ events (k a (device (m d))).
Proof. intros H. now rewrite bind_events, H. Qed.

Lemma _writeByte_events register byte d :
  exists acknowledged,
    events (_writeByte i2cObject options register byte d)
    = [WriteByte (address options) register byte acknowledged]
    /\ (outcome (_writeByte i2cObject options register byte d) = Done tt
        <-> acknowledged = true).
Proof.
  unfold _writeByte, events, outcome.
  destruct (writeByte i2cObject (address options) register byte d)
    as [[err |] d1]; cbn [fst snd].
  - exists false. split; [reflexivity |]. split; discriminate.
  - exists true. split; [reflexivity |]. split; reflexivity.
Qed.

(** A write followed by the delay: the write, and the timer when the
    write was acknowledged. *)
Lemma write_then_delay_events register byte delayInMs d :
  exists acknowledged,
    events ((_writeByte i2cObject options register byte ;;
             _delay i2cObject delayInMs) d)
    = WriteByte (address options) register byte acknowledged
        :: (if acknowledged then [Timer 1000] else [])
    /\ (outcome ((_writeByte i2cObject options register byte ;;
                  _delay i2cObject delayInMs) d) = Done tt
        -> acknowledged = true).
Proof.
  rewrite bind_events, bind_outcome.
  destruct (_writeByte_events register byte d) as (ack & -> & Hack).
  exists ack. destruct (outcome (_writeByte i2cObject options register byte d))
    as [[] | e |]; destruct ack; cbn; split; auto;
    try (destruct Hack as [H1 H2]; (discriminate (H1 eq_refl) || discriminate (H2 eq_refl)));
    try discriminate.
Qed.





(** The monitor completes only when a byte satisfying each mask has been
    read. *)
Lemma _awaitCalibration_Done fuel d :
  outcome (_awaitCalibration i2cObject options fuel d) = Done tt ->
  In (WriteByte (address options) constants.OPR_MODE
        constants.OPERATION_MODE_NDOF_FMC_OFF true)
    (events (_awaitCalibration i2cObject options fuel d))
  /\ forall mask, In mask [0x03; 0x0C; 0x30; 0xC0] ->
       exists byte,
         In (ReadByte (address options) constants.CALIB_STAT (Some byte))
           (events (_awaitCalibration i2cObject options fuel d))
         /\ JS.band byte mask = mask.
Proof.
  intros Hdone.
  destruct (_awaitCalibration i2cObject options fuel d) as [[r evs] d'] eqn:Hrun.
  unfold outcome in Hdone; cbn in Hdone; subst r. unfold events; cbn [fst snd].
  unfold _awaitCalibration in Hrun.
  apply bind_Done_inv in Hrun as ([] & t1 & d1 & t2 & Hmode & Hmerge & ->).
  split.
  - apply in_or_app. left.
    destruct (write_then_delay_events constants.OPR_MODE
                (modeValue (sensor ndof_fmc_off)) 30 d) as (ack & Hev & Hack).
    unfold _setMode in Hmode. rewrite Hmode in Hev, Hack.
    unfold events, outcome in Hev, Hack; cbn [fst snd] in Hev, Hack.
    rewrite Hev, (Hack eq_refl). now left.
  - intros mask Hmask.
    destruct (mergeObservable_stops _ _ _ _ _ _ _ Hmerge (_awaitCalibrationPart mask))
      as (byte & Hin & Hstop).
    + apply calibrationParts_masks. now exists mask.
    + exists byte. split; [apply in_or_app; now right |].
      now apply _awaitCalibrationPart_stops.
Qed.

Lemma _awaitCalibration_no_block_read fuel d a register length answer :
  ~ In (ReadI2cBlock a register length answer)
      (events (_awaitCalibration i2cObject options fuel d)).
Proof.
  unfold _awaitCalibration. intros H.
  apply bind_In in H as [H | ([] & _ & H)].
  - destruct (write_then_delay_events constants.OPR_MODE
                (modeValue (sensor ndof_fmc_off)) 30 d) as (ack & Hev & _).
    unfold _setMode in H. rewrite Hev in H.
    destruct ack; cbn in H; intuition discriminate.
  - pose proof (mergeObservable_reads i2cObject options fuel calibrationParts
                  (device (_setMode i2cObject options (sensor ndof_fmc_off) d)))
      as Hreads.
    rewrite Forall_forall in Hreads.
    apply Hreads in H as [H | [H | (p & read & _ & H)]]; discriminate H.
Qed.

End Steps.



(** ** Calibration data *)

(** X13: calibration data is read only after the monitor has completed:
    when a subscription to [getCalibrationData] issues a block read, and
    the pre-calibration stream it waits for issues none, the mode
    [ndof_fmc_off] has been written and acknowledged and a byte satisfying
    each of the four masks has been read from [CALIB_STAT]. *)
Theorem calibration_read_after_monitor {Dev TErr : Type}
  (i2cObject : I2cBus Dev TErr) (options : Bno055Options.t)
  (preCalibrationInitializationStream : Obs Dev TErr unit) (fuel : nat)
  (d : Dev) (a : float) (register length : Z) (answer : option (list Z)) :
  (forall d' a' register' length' answer',
      ~ In (ReadI2cBlock a' register' length' answer')
          (events (preCalibrationInitializationStream d'))) ->
  In (ReadI2cBlock a register length answer)
    (events (getCalibrationData i2cObject options
               preCalibrationInitializationStream fuel d)) ->
  In (WriteByte (address options) constants.OPR_MODE
        constants.OPERATION_MODE_NDOF_FMC_OFF true)
    (events (getCalibrationData i2cObject options
               preCalibrationInitializationStream fuel d))
  /\ forall mask, In mask [0x03; 0x0C; 0x30; 0xC0] ->
       exists byte,
         In (ReadByte (address options) constants.CALIB_STAT (Some byte))
           (events (getCalibrationData i2cObject options
                      preCalibrationInitializationStream fuel d))
         /\ JS.band byte mask = mask.
Proof.
  intros Hpre H. unfold getCalibrationData in *.
  apply bind_In in H as [H | ([] & Hdone & H)]; [now apply Hpre in H |].
  apply bind_In in H as [H | ([] & Hmonitor & H)];
    [now apply _awaitCalibration_no_block_read in H |].
  destruct (_awaitCalibration_Done i2cObject options fuel _ Hmonitor)
    as [Hmode Hmasks].
  split.
  - apply bind_In. right. exists tt. split; [exact Hdone |].
    apply bind_In. now left.
  - intros mask Hmask. destruct (Hmasks mask Hmask) as (byte & Hin & Hbits).
    exists byte. split; [| exact Hbits].
    apply bind_In. right. exists tt. split; [exact Hdone |].
    apply bind_In. now left.
Qed.

Lemma calibration_read_after_monitor_witness :
  In (WriteByte (address defaultOptions) constants.OPR_MODE
        constants.OPERATION_MODE_NDOF_FMC_OFF true)
    (events (getCalibrationData (simulated (fun _ _ => 0xFF)) defaultOptions
               (ret tt) 1 0))
  /\ forall mask, In mask [0x03; 0x0C; 0x30; 0xC0] ->
       exists byte,
         In (ReadByte (address defaultOptions) constants.CALIB_STAT (Some byte))
           (events (getCalibrationData (simulated (fun _ _ => 0xFF))
                      defaultOptions (ret tt) 1 0))
         /\ JS.band byte mask = mask.
Proof.
  apply (calibration_read_after_monitor (simulated (fun _ _ => 0xFF))
           defaultOptions (ret tt) 1 0 0x28 0x55 6
           (Some [0xFF; 0xFF; 0xFF; 0xFF; 0xFF; 0xFF])).
  - intros d' a' register' length' answer' H. destruct H.
  - do 7 right. left. reflexivity.
Defined.

(** X14: writing calibration data touches the calibration registers only
    and stops at the first write that is not acknowledged: on any
    transport every event is a byte write to a register in
    [0x55 .. 0x6A], at most 22 of them; the sequence completes exactly
    when 22 writes have been acknowledged, and otherwise fails with the
    transport's error, the unacknowledged write being the last event. *)
Theorem calibration_writes_stop_at_failure {Dev TErr : Type}
  (i2cObject : I2cBus Dev TErr) (options : Bno055Options.t)
  (calibrationData : Bno055CalibrationData Z) (d : Dev) :
  Forall
    (fun e =>
       exists register byte acknowledged,
         e = WriteByte (address options) register byte acknowledged
         /\ 0x55 <= register <= 0x6A)
    (events (_writeCalibrationData i2cObject options calibrationData d))
  /\ match outcome (_writeCalibrationData i2cObject options calibrationData d) with
     | Done _ =>
         List.length
           (events (_writeCalibrationData i2cObject options calibrationData d))
         = 22%nat
         /\ Forall
              (fun e =>
                 exists register byte,
                   e = WriteByte (address options) register byte true)
              (events (_writeCalibrationData i2cObject options calibrationData d))
     | Failed e =>
         (List.length
            (events (_writeCalibrationData i2cObject options calibrationData d))
          <= 22)%nat
         /\ exists err register byte,
             e = FromTransport err
             /\ last
                  (events
                     (_writeCalibrationData i2cObject options calibrationData d))
                  (Timer 0)
                = WriteByte (address options) register byte false
     | Running => False
     end.
Proof.
  unfold _writeCalibrationData, bind, _writeByte, outcome, events.
  repeat
    match goal with
    | |- context [writeByte i2cObject ?a ?r ?b ?s] =>
        destruct (writeByte i2cObject a r b s) as [[?err |] ?d]; cbn [fst snd app]
    end;
    (split;
     [ repeat constructor;
       eexists _, _, _; (split; [reflexivity | vm_compute; split; discriminate])
     | cbn [List.length last];
       first
         [ split; [lia | eexists _, _, _; split; reflexivity]
         | split; [reflexivity | repeat constructor; eexists _, _; reflexivity] ] ]).
Qed.

(** On a chip that keeps what is written to it, the calibration data read
    is decoded from the registers [0x55 .. 0x5A] and [0x67 .. 0x6A]. *)
Lemma _readCalibration_registerFile (options : Bno055Options.t)
  (registers : Z -> Z) :
  outcome (_readCalibration registerFile options registers)
  = Done
      {| accelerometerOffset :=
           _bufferToVector
             [registers 0x55; registers 0x56; registers 0x57;
              registers 0x58; registers 0x59; registers 0x5A] 1;
         accelerometerRadius :=
           JS.toFloat (decodeInt16 (registers 0x67) (registers 0x68));
         gyroscopeOffset :=
           _bufferToVector
             [registers 0x55; registers 0x56; registers 0x57;
              registers 0x58; registers 0x59; registers 0x5A] 1;
         magnetometerOffset :=
           _bufferToVector
             [registers 0x55; registers 0x56; registers 0x57;
              registers 0x58; registers 0x59; registers 0x5A] 1;
         magnetometerRadius :=
           JS.toFloat (decodeInt16 (registers 0x69) (registers 0x6A)) |}.
Proof. reflexivity. Qed.

(** X15: on a chip that keeps what is written to it, reading the
    calibration data after writing it returns the accelerometer offset and
    the two radii that were written, for values from 0 to 32767. *)
Theorem calibration_written_is_read_back (options : Bno055Options.t)
  (calibrationData : Bno055CalibrationData Z) (registers : Z -> Z) :
  0 <= x (accelerometerOffset calibrationData) <= 32767 ->
  0 <= y (accelerometerOffset calibrationData) <= 32767 ->
  0 <= z (accelerometerOffset calibrationData) <= 32767 ->
  0 <= accelerometerRadius calibrationData <= 32767 ->
  0 <= magnetometerRadius calibrationData <= 32767 ->
  exists gyroscope magnetometer,
    outcome
      (_readCalibration registerFile options
         (device
            (_writeCalibrationData registerFile options calibrationData
               registers)))
    = Done
        {| accelerometerOffset :=
             {| x := JS.toFloat (x (accelerometerOffset calibrationData));
                y := JS.toFloat (y (accelerometerOffset calibrationData));
                z := JS.toFloat (z (accelerometerOffset calibrationData)) |};
           accelerometerRadius :=
             JS.toFloat (accelerometerRadius calibrationData);
           gyroscopeOffset := gyroscope;
           magnetometerOffset := magnetometer;
           magnetometerRadius :=
             JS.toFloat (magnetometerRadius calibrationData) |}.
Proof.
  intros Hx Hy Hz Har Hmr.
  rewrite _readCalibration_registerFile.
  set (written := device (_writeCalibrationData registerFile options
                            calibrationData registers)).
  assert (H55 : written 0x55 = int16ToLsb (x (accelerometerOffset calibrationData)))
    by reflexivity.
  assert (H56 : written 0x56 = int16ToMsb (x (accelerometerOffset calibrationData)))
    by reflexivity.
  assert (H57 : written 0x57 = int16ToLsb (y (accelerometerOffset calibrationData)))
    by reflexivity.
  assert (H58 : written 0x58 = int16ToMsb (y (accelerometerOffset calibrationData)))
    by reflexivity.
  assert (H59 : written 0x59 = int16ToLsb (z (accelerometerOffset calibrationData)))
    by reflexivity.
  assert (H5A : written 0x5A = int16ToMsb (z (accelerometerOffset calibrationData)))
    by reflexivity.
  assert (H67 : written 0x67 = int16ToLsb (accelerometerRadius calibrationData))
    by reflexivity.
  assert (H68 : written 0x68 = int16ToMsb (accelerometerRadius calibrationData))
    by reflexivity.
  assert (H69 : written 0x69 = int16ToLsb (magnetometerRadius calibrationData))
    by reflexivity.
  assert (H6A : written 0x6A = int16ToMsb (magnetometerRadius calibrationData))
    by reflexivity.
  clearbody written.
  unfold _bufferToVector at 1. cbn [JS.index nth].
  rewrite H55, H56, H57, H58, H59, H5A, H67, H68, H69, H6A.
  rewrite !roundtrip_nonneg by assumption.
  rewrite !divide_by_1_exact by lia.
  eexists. eexists. reflexivity.
Qed.

Lemma calibration_written_is_read_back_witness :
  exists gyroscope magnetometer,
    outcome
      (_readCalibration registerFile defaultOptions
         (device
            (_writeCalibrationData registerFile defaultOptions
               sampleCalibration (fun _ => 0))))
    = Done
        {| accelerometerOffset :=
             {| x := JS.toFloat 1; y := JS.toFloat 258; z := JS.toFloat 3 |};
           accelerometerRadius := JS.toFloat 1000;
           gyroscopeOffset := gyroscope;
           magnetometerOffset := magnetometer;
           magnetometerRadius := JS.toFloat 480 |}.
Proof.
  apply (calibration_written_is_read_back defaultOptions sampleCalibration
           (fun _ => 0)); cbn; lia.
Defined.

(** ** Initialization *)

(** X16: initialization ends with the requested mode: whatever the
    transport answers and whatever the shared pre-calibration stream
    does, when initialization completes, its last bus transaction is the
    acknowledged write of the requested mode's code to [OPR_MODE],
    followed by one timer. *)
Theorem initialization_ends_with_mode {Dev TErr : Type}
  (i2cObject : I2cBus Dev TErr) (options : Bno055Options.t)
  (preCalibrationInitializationStream : Obs Dev TErr unit) (fuel : nat)
  (mode : Bno055Mode) (calibrationData : option (Bno055CalibrationData Z))
  (d : Dev) :
  outcome (_initialize i2cObject options preCalibrationInitializationStream
             fuel mode calibrationData d) = Done tt ->
  exists before ms,
    events (_initialize i2cObject options preCalibrationInitializationStream
              fuel mode calibrationData d)
    = before
        ++ [WriteByte (address options) constants.OPR_MODE
              (modeValue (sensor mode)) true;
            Timer ms].
Proof.
  unfold _initialize. intros H.
  rewrite bind_outcome in H.
  destruct (outcome (preCalibrationInitializationStream d)) as [[] | e |] eqn:Hpre;
    try discriminate H.
  rewrite bind_outcome in H.
  destruct (outcome (_setOrAwaitCalibrationData i2cObject options fuel
                       calibrationData _)) as [[] | e |] eqn:Hcal;
    try discriminate H.
  rewrite (bind_events_Done _ _ _ _ Hpre), (bind_events_Done _ _ _ _ Hcal).
  destruct (write_then_delay_events i2cObject options constants.OPR_MODE
              (modeValue (sensor mode)) 30
              (device (_setOrAwaitCalibrationData i2cObject options fuel
                         calibrationData
                         (device (preCalibrationInitializationStream d)))))
    as (ack & Hev & Hack).
  fold (_setMode i2cObject options (sensor mode)) in Hev, Hack.
  rewrite Hev, (Hack H). eexists. eexists. rewrite app_assoc. reflexivity.
Qed.

Lemma initialization_ends_with_mode_witness :
  exists before ms,
    events (_initialize (simulated ownAddress) defaultOptions (ret tt) 0 ndof
              (Some sampleCalibration) 0)
    = before
        ++ [WriteByte (address defaultOptions) constants.OPR_MODE
              (modeValue (sensor ndof)) true;
            Timer ms].
Proof.
  apply (initialization_ends_with_mode (simulated ownAddress) defaultOptions
           (ret tt) 0 ndof (Some sampleCalibration) 0).
  reflexivity.
Defined.
